(** * Arduino core for the HC32F46x: ADC driver and digital pin API

    A shallow embedding of [cores/arduino/drivers/adc/adc.cpp] and
    [cores/arduino/wiring_digital.cpp].

    Both files are sequences of calls into the vendor peripheral library,
    guarded by assertions.  The embedding threads an explicit [world]
    through every function: the peripheral registers the code reads back,
    the ADC device objects that live in memory (and are shared between all
    pins of one converter), the ordered log of vendor calls, and the debug
    console.  Functions are written in a small state-and-halt monad, one
    line of Rocq per statement of the source. *)

From stdpp Require Import base tactics decidable option list numbers strings functions.

Local Open Scope Z_scope.

(** ** Vendor enumerations

    Only the enumerators named by the two source files are listed.  The
    vendor numbers [Disable] and [Pin_Mode_In] as zero, which is what
    [MEM_ZERO_STRUCT] leaves in a zeroed structure. *)

Inductive en_functional_state_t := Disable | Enable.
Inductive en_flag_status_t := Reset | Set_.
Inductive en_dma_irq_sel_t := TrnCpltIrq | BlkTrnCpltIrq.
Inductive en_adc_clren_t := AdcClren_Enable.
Inductive en_adc_rschsel_t := AdcRschsel_Restart.
Inductive en_dma_address_mode_t := AddressIncrease.
Inductive en_dma_transfer_width_t := Dma16Bit.

(** A pin mode read back from the port registers may be a value that none
    of the three named enumerators covers; [getPinMode] has a [default]
    branch for it. *)
Inductive en_pin_mode_t :=
  | Pin_Mode_In
  | Pin_Mode_Out
  | Pin_Mode_Ana
  | Pin_Mode_Other (raw : Z).

(** A pin may be routed to a peripheral other than plain GPIO before
    [pinMode] is called. *)
Inductive en_port_func_t :=
  | Func_Gpio
  | Func_Other (raw : Z).

#[global] Instance en_functional_state_eq_dec : EqDecision en_functional_state_t.
Proof. solve_decision. Defined.
#[global] Instance en_flag_status_eq_dec : EqDecision en_flag_status_t.
Proof. solve_decision. Defined.
#[global] Instance en_dma_irq_sel_eq_dec : EqDecision en_dma_irq_sel_t.
Proof. solve_decision. Defined.
#[global] Instance en_pin_mode_eq_dec : EqDecision en_pin_mode_t.
Proof. solve_decision. Defined.
#[global] Instance en_port_func_eq_dec : EqDecision en_port_func_t.
Proof. solve_decision. Defined.

(** ** Vendor structures *)

(** Addresses handed to the DMA engine are kept symbolic. *)
Inductive address :=
  | Addr_DR0 (adc_register_base : Z)
  | Addr_conversion_results (device : N).

Record stc_adc_init_t := {
  enResolution : Z;
  enDataAlign : Z;
  enAutoClear : en_adc_clren_t;
  enScanMode : Z;
  enRschsel : en_adc_rschsel_t;
}.

Record stc_dma_ch_cfg_t := {
  enSrcInc : en_dma_address_mode_t;
  enDesInc : en_dma_address_mode_t;
  enSrcRptEn : en_functional_state_t;
  enDesRptEn : en_functional_state_t;
  enSrcNseqEn : en_functional_state_t;
  enDesNseqEn : en_functional_state_t;
  enTrnWidth : en_dma_transfer_width_t;
  enLlpEn : en_functional_state_t;
  enIntEn : en_functional_state_t;
}.

Record stc_dma_config_t := {
  u16BlockSize : Z;
  u16TransferCnt : Z;
  u32SrcAddr : address;
  u32DesAddr : address;
  u16SrcRptSize : Z;
  u16DesRptSize : Z;
  stcDmaChCfg : stc_dma_ch_cfg_t;
}.

Record stc_adc_ch_cfg_t := {
  u32Channel : Z;
  u8Sequence : Z;
  pu8SampTime : Z;
}.

(** The two fields of the port configuration that the source touches. *)
Record stc_port_init_t := {
  enPinMode : en_pin_mode_t;
  enPullUp : en_functional_state_t;
}.

#[global] Instance stc_port_init_eq_dec : EqDecision stc_port_init_t.
Proof. solve_decision. Defined.

(** ** ADC device objects ([adc_device_t]) *)

Module AdcCfg.
Record t := {
  register_base : Z;
  clock_id : Z;
  sequence : Z;
  channel_count : Z;
}.
End AdcCfg.

Module DmaCfg.
Record t := {
  register_base : Z;
  clock_id : Z;
  channel : Z;
  event_source : Z;
}.
End DmaCfg.

Record adc_init_params_t := {
  resolution : Z;
  data_alignment : Z;
  scan_mode : Z;
}.

(** [conversion_results] is the buffer the DMA engine fills, one 16-bit
    entry per channel. *)
Record adc_device_state_t := {
  initialized : bool;
  conversion_results : list Z;
}.

Record adc_device_t := {
  adc : AdcCfg.t;
  init_params : adc_init_params_t;
  dma : DmaCfg.t;
  state : adc_device_state_t;
}.

(** [device->state.initialized = v] *)
Definition set_initialized (v : bool) (d : adc_device_t) : adc_device_t :=
  {| adc := adc d;
     init_params := init_params d;
     dma := dma d;
     state := {| initialized := v;
                 conversion_results := conversion_results (state d) |} |}.

(** ** Calls out of the two files

    Into the vendor library, into the GPIO driver, and [yield()]. *)

Inductive vendor_call :=
  | Call_PWC_Fcg3PeriphClockCmd (periph : Z) (s : en_functional_state_t)
  | Call_PWC_Fcg0PeriphClockCmd (periph : Z) (s : en_functional_state_t)
  | Call_ADC_Init (adc_base : Z) (cfg : stc_adc_init_t)
  | Call_ADC_TriggerSrcCmd (adc_base seq : Z) (s : en_functional_state_t)
  | Call_ADC_AddAdcChannel (adc_base : Z) (cfg : stc_adc_ch_cfg_t)
  | Call_ADC_DelAdcChannel (adc_base mask : Z)
  | Call_ADC_StartConvert (adc_base : Z)
  | Call_DMA_InitChannel (dma_base ch : Z) (cfg : stc_dma_config_t)
  | Call_DMA_Cmd (dma_base : Z) (s : en_functional_state_t)
  | Call_DMA_ChannelCmd (dma_base ch : Z) (s : en_functional_state_t)
  | Call_DMA_ClearIrqFlag (dma_base ch : Z) (irq : en_dma_irq_sel_t)
  | Call_DMA_GetIrqFlag (dma_base ch : Z) (irq : en_dma_irq_sel_t)
  | Call_DMA_SetTriggerSrc (dma_base ch src : Z)
  | Call_GPIO_SetFunc (pin : N) (f : en_port_func_t) (sub : en_functional_state_t)
  | Call_GPIO_Init (pin : N) (cfg : stc_port_init_t)
  | Call_GPIO_GetConfig (pin : N)
  | Call_GPIO_SetBits (pin : N)
  | Call_GPIO_ResetBits (pin : N)
  | Call_GPIO_GetBit (pin : N)
  | Call_yield.

(** ** The world *)

(** The peripheral state that the code reads back. *)
Record hardware := {
  dma_irq_flag : Z * Z * en_dma_irq_sel_t -> en_flag_status_t;
  gpio_func : N -> en_port_func_t * en_functional_state_t;
  gpio_cfg : N -> stc_port_init_t;
  gpio_out : N -> bool;
  gpio_in : N -> bool;
}.

Inductive printf_arg :=
  | ArgStr (s : string)
  | ArgInt (z : Z).

Record debug_line := {
  dbg_format : string;
  dbg_args : list printf_arg;
}.

(** [devices] is the memory that holds the ADC device objects: a pointer
    to a device is its address, so two pins that name the same converter
    share its [state].  [ticks] counts the calls of [yield()]. *)
Record world := {
  hw : hardware;
  devices : N -> adc_device_t;
  trace : list vendor_call;
  console : list debug_line;
  ticks : nat;
}.

Definition set_hw (f : hardware -> hardware) (w : world) : world :=
  {| hw := f (hw w); devices := devices w; trace := trace w;
     console := console w; ticks := ticks w |}.

Definition set_devices (f : (N -> adc_device_t) -> (N -> adc_device_t))
    (w : world) : world :=
  {| hw := hw w; devices := f (devices w); trace := trace w;
     console := console w; ticks := ticks w |}.

Definition log_call (c : vendor_call) (w : world) : world :=
  {| hw := hw w; devices := devices w; trace := trace w ++ [c];
     console := console w; ticks := ticks w |}.

Definition log_console (l : debug_line) (w : world) : world :=
  {| hw := hw w; devices := devices w; trace := trace w;
     console := console w ++ [l]; ticks := ticks w |}.

Definition tick (w : world) : world :=
  {| hw := hw w; devices := devices w; trace := trace w;
     console := console w; ticks := S (ticks w) |}.

Definition set_dma_irq_flag (k : Z * Z * en_dma_irq_sel_t)
    (v : en_flag_status_t) (h : hardware) : hardware :=
  {| dma_irq_flag := <[k := v]> (dma_irq_flag h);
     gpio_func := gpio_func h; gpio_cfg := gpio_cfg h;
     gpio_out := gpio_out h; gpio_in := gpio_in h |}.

Definition set_gpio_func (pin : N) (v : en_port_func_t * en_functional_state_t)
    (h : hardware) : hardware :=
  {| dma_irq_flag := dma_irq_flag h;
     gpio_func := <[pin := v]> (gpio_func h); gpio_cfg := gpio_cfg h;
     gpio_out := gpio_out h; gpio_in := gpio_in h |}.

Definition set_gpio_cfg (pin : N) (v : stc_port_init_t)
    (h : hardware) : hardware :=
  {| dma_irq_flag := dma_irq_flag h;
     gpio_func := gpio_func h; gpio_cfg := <[pin := v]> (gpio_cfg h);
     gpio_out := gpio_out h; gpio_in := gpio_in h |}.

Definition set_gpio_out (pin : N) (v : bool) (h : hardware) : hardware :=
  {| dma_irq_flag := dma_irq_flag h;
     gpio_func := gpio_func h; gpio_cfg := gpio_cfg h;
     gpio_out := <[pin := v]> (gpio_out h); gpio_in := gpio_in h |}.

(** ** The monad: state, plus a halt *)

Inductive halt_t :=
  | AssertFailed (msg : string)
  | OutOfBounds
  | OutOfFuel.

Inductive outcome (A : Type) :=
  | Ok (a : A) (w : world)
  | Halt (h : halt_t) (w : world).
Arguments Ok {A} a w.
Arguments Halt {A} h w.

Definition M (A : Type) : Type := world -> outcome A.

#[global] Instance M_ret : MRet M := λ A a w, Ok a w.
#[global] Instance M_bind : MBind M := λ A B f m w,
  match m w with
  | Ok a w' => f a w'
  | Halt h w' => Halt h w'
  end.

Definition halt {A} (h : halt_t) : M A := λ w, Halt h w.
Definition get_world : M world := λ w, Ok w w.
Definition modify (f : world -> world) : M unit := λ w, Ok tt (f w).

(** The world an outcome ends in, whether the function returned or not. *)
Definition final_world {A} (o : outcome A) : world :=
  match o with
  | Ok _ w => w
  | Halt _ w => w
  end.

(** ** The board *)

(** An entry of [PIN_MAP], with the two fields that [pinMode] reads.
    [adc_device] is a pointer to the converter of the pin, or [NULL]. *)
Record pin_info_t := {
  adc_device : option N;
  adc_channel : Z;
}.

(** The constants and tables that the two files take from headers that are
    not embedded here (the board variant, wiring_constants.h, the vendor
    headers, and the default sample time that adc.h declares for
    [adc_enable_channel]).  The four pin modes are [case] labels of one
    [switch], so they are pairwise different. *)
Class Board := {
  BOARD_NR_GPIO_PINS : N;
  PIN_MAP : N -> pin_info_t;
  ADC_PIN_INVALID : Z;
  INPUT : Z;
  INPUT_PULLUP : Z;
  INPUT_ANALOG : Z;
  OUTPUT : Z;
  INPUT_FLOATING : Z;
  HIGH : Z;
  LOW : Z;
  M4_ADC1 : Z;
  M4_ADC2 : Z;
  PWC_FCG0_PERIPH_AOS : Z;
  ADC_SAMPLE_TIME_DEFAULT : Z;
  GPIO_PIN_INVALID_MESSAGE : string -> string;
  pin_modes_distinct : NoDup [INPUT; INPUT_PULLUP; INPUT_ANALOG; OUTPUT];
}.

(** What a build does with [CORE_ASSERT]. *)
Inductive build_t :=
  | Release
  | DebugLog
  | DebugAbort.

#[global] Instance build_eq_dec : EqDecision build_t.
Proof. solve_decision. Defined.

Section Core.
Context `{Board}.

(** [build] is the way the firmware was compiled.  [environment t] is
    what the peripherals (the DMA engine above all) do to the registers
    while the [t]-th call of [yield()] runs. *)
Variable build : build_t.
Variable environment : nat -> hardware -> hardware.

(** *** core_debug.h *)

(** Modelled from the spec: [CORE_DEBUG_PRINTF] of core_debug.h, a header
    that is not embedded here.  Debug output exists in debug builds
    only. *)
Definition CORE_DEBUG_PRINTF (fmt : string) (args : list printf_arg) : M unit :=
  match build with
  | Release => mret tt
  | DebugLog | DebugAbort =>
      modify (log_console {| dbg_format := fmt; dbg_args := args |})
  end.

(** Modelled from the spec: [CORE_ASSERT_FAIL] of core_debug.h.  The
    assertions "abort/log in debug builds and are compiled out in release
    builds": a debug build either halts with the message or prints it
    and goes on. *)
Definition CORE_ASSERT_FAIL (message : string) : M unit :=
  match build with
  | Release => mret tt
  | DebugLog => modify (log_console {| dbg_format := message; dbg_args := [] |})
  | DebugAbort => halt (AssertFailed message)
  end.

(** Modelled from the spec: [CORE_ASSERT] of core_debug.h. *)
Definition CORE_ASSERT (expression : bool) (message : string) : M unit :=
  if expression then mret tt else CORE_ASSERT_FAIL message.

(** *** The vendor library

    Every call is logged.  Clearing and reading a DMA interrupt flag
    also act on the flag register. *)

Definition vendor (c : vendor_call) : M unit := modify (log_call c).

Definition PWC_Fcg3PeriphClockCmd (periph : Z) (s : en_functional_state_t) : M unit :=
  vendor (Call_PWC_Fcg3PeriphClockCmd periph s).
Definition PWC_Fcg0PeriphClockCmd (periph : Z) (s : en_functional_state_t) : M unit :=
  vendor (Call_PWC_Fcg0PeriphClockCmd periph s).
Definition ADC_Init (base : Z) (cfg : stc_adc_init_t) : M unit :=
  vendor (Call_ADC_Init base cfg).
Definition ADC_TriggerSrcCmd (base seq : Z) (s : en_functional_state_t) : M unit :=
  vendor (Call_ADC_TriggerSrcCmd base seq s).
Definition ADC_AddAdcChannel (base : Z) (cfg : stc_adc_ch_cfg_t) : M unit :=
  vendor (Call_ADC_AddAdcChannel base cfg).
Definition ADC_DelAdcChannel (base mask : Z) : M unit :=
  vendor (Call_ADC_DelAdcChannel base mask).
Definition ADC_StartConvert (base : Z) : M unit :=
  vendor (Call_ADC_StartConvert base).
Definition DMA_InitChannel (base ch : Z) (cfg : stc_dma_config_t) : M unit :=
  vendor (Call_DMA_InitChannel base ch cfg).
Definition DMA_Cmd (base : Z) (s : en_functional_state_t) : M unit :=
  vendor (Call_DMA_Cmd base s).
Definition DMA_ChannelCmd (base ch : Z) (s : en_functional_state_t) : M unit :=
  vendor (Call_DMA_ChannelCmd base ch s).
Definition DMA_SetTriggerSrc (base ch src : Z) : M unit :=
  vendor (Call_DMA_SetTriggerSrc base ch src).

Definition DMA_ClearIrqFlag (base ch : Z) (irq : en_dma_irq_sel_t) : M unit :=
  vendor (Call_DMA_ClearIrqFlag base ch irq);;
  modify (set_hw (set_dma_irq_flag (base, ch, irq) Reset)).

Definition DMA_GetIrqFlag (base ch : Z) (irq : en_dma_irq_sel_t) : M en_flag_status_t :=
  vendor (Call_DMA_GetIrqFlag base ch irq);;
  w ← get_world;
  mret (dma_irq_flag (hw w) (base, ch, irq)).

(** [yield()] hands the processor over; the peripherals move on. *)
Definition yield : M unit :=
  vendor Call_yield;;
  modify (λ w, tick (set_hw (environment (ticks w)) w)).

(** *** adc.cpp *)

(** [*device] *)
Definition deref (device : N) : M adc_device_t :=
  w ← get_world; mret (devices w device).

Definition ASSERT_CHANNEL_ID (device : N) (channel : Z) : M unit :=
  d ← deref device;
  CORE_ASSERT ((0 <=? channel) && (channel <? AdcCfg.channel_count (adc d)))
    "invalid channel id".

Definition ASSERT_INITIALIZED (device : N) (function_name : string) : M unit :=
  d ← deref device;
  CORE_ASSERT (initialized (state d))
    ("ADC device not initialized (calling " +:+ function_name +:+ ")").

Definition ADC_REG_TO_NAME (reg : Z) : string :=
  if decide (reg = M4_ADC1) then "ADC1"
  else if decide (reg = M4_ADC2) then "ADC2"
  else "N/A".

Definition ADC_DEBUG_PRINTF (device : N) (fmt : string) (args : list printf_arg) : M unit :=
  d ← deref device;
  CORE_DEBUG_PRINTF ("[%s] " +:+ fmt)
    (ArgStr (ADC_REG_TO_NAME (AdcCfg.register_base (adc d))) :: args).

Definition adc_adc_init (device : N) : M unit :=
  d ← deref device;
  PWC_Fcg3PeriphClockCmd (AdcCfg.clock_id (adc d)) Enable;;
  let init_device :=
    {| enResolution := resolution (init_params d);
       enDataAlign := data_alignment (init_params d);
       enAutoClear := AdcClren_Enable;
       enScanMode := scan_mode (init_params d);
       enRschsel := AdcRschsel_Restart |} in
  ADC_Init (AdcCfg.register_base (adc d)) init_device;;
  ADC_TriggerSrcCmd (AdcCfg.register_base (adc d)) (AdcCfg.sequence (adc d)) Disable.

Definition adc_dma_init (device : N) : M unit :=
  d ← deref device;
  let dma_device :=
    {| u16BlockSize := AdcCfg.channel_count (adc d);
       u16TransferCnt := 0;
       u32SrcAddr := Addr_DR0 (AdcCfg.register_base (adc d));
       u32DesAddr := Addr_conversion_results device;
       u16SrcRptSize := AdcCfg.channel_count (adc d);
       u16DesRptSize := AdcCfg.channel_count (adc d);
       stcDmaChCfg :=
         {| enSrcInc := AddressIncrease;
            enDesInc := AddressIncrease;
            enSrcRptEn := Enable;
            enDesRptEn := Enable;
            enSrcNseqEn := Disable;
            enDesNseqEn := Disable;
            enTrnWidth := Dma16Bit;
            enLlpEn := Disable;
            enIntEn := Disable |} |} in
  PWC_Fcg0PeriphClockCmd (DmaCfg.clock_id (dma d)) Enable;;
  DMA_InitChannel (DmaCfg.register_base (dma d)) (DmaCfg.channel (dma d)) dma_device;;
  DMA_Cmd (DmaCfg.register_base (dma d)) Enable;;
  DMA_ChannelCmd (DmaCfg.register_base (dma d)) (DmaCfg.channel (dma d)) Enable;;
  DMA_ClearIrqFlag (DmaCfg.register_base (dma d)) (DmaCfg.channel (dma d)) TrnCpltIrq;;
  DMA_ClearIrqFlag (DmaCfg.register_base (dma d)) (DmaCfg.channel (dma d)) BlkTrnCpltIrq;;
  PWC_Fcg0PeriphClockCmd PWC_FCG0_PERIPH_AOS Enable;;
  DMA_SetTriggerSrc (DmaCfg.register_base (dma d)) (DmaCfg.channel (dma d))
    (DmaCfg.event_source (dma d)).

Definition adc_device_init (device : N) : M unit :=
  d ← deref device;
  if initialized (state d) then mret tt
  else
    adc_adc_init device;;
    adc_dma_init device;;
    modify (set_devices (alter (set_initialized true) device));;
    ADC_DEBUG_PRINTF device "initialized device\n" [].

Definition adc_channel_to_mask (device : N) (channel : Z) : M Z :=
  ASSERT_CHANNEL_ID device channel;;
  mret (Z.shiftl 1 channel mod 2 ^ 32).

Definition adc_enable_channel (device : N) (adc_channel sample_time : Z) : M unit :=
  ASSERT_INITIALIZED device "adc_enable_channel";;
  ASSERT_CHANNEL_ID device adc_channel;;
  CORE_ASSERT (0 <? sample_time) "adc channel sample_time must be > 0";;
  ADC_DEBUG_PRINTF device "enable channel %d, sample_time=%d\n"
    [ArgInt adc_channel; ArgInt sample_time];;
  d ← deref device;
  mask ← adc_channel_to_mask device adc_channel;
  let channel_config :=
    {| u32Channel := mask;
       u8Sequence := AdcCfg.sequence (adc d);
       pu8SampTime := sample_time |} in
  ADC_AddAdcChannel (AdcCfg.register_base (adc d)) channel_config.

Definition adc_disable_channel (device : N) (adc_channel : Z) : M unit :=
  d ← deref device;
  if negb (initialized (state d)) then mret tt
  else
    ASSERT_CHANNEL_ID device adc_channel;;
    ADC_DEBUG_PRINTF device "disable channel %d\n" [ArgInt adc_channel];;
    mask ← adc_channel_to_mask device adc_channel;
    ADC_DelAdcChannel (AdcCfg.register_base (adc d)) mask.

Definition adc_start_conversion (device : N) : M unit :=
  ASSERT_INITIALIZED device "adc_start_conversion";;
  d ← deref device;
  DMA_ClearIrqFlag (DmaCfg.register_base (dma d)) (DmaCfg.channel (dma d)) BlkTrnCpltIrq;;
  ADC_StartConvert (AdcCfg.register_base (adc d)).

Definition adc_is_conversion_completed (device : N) : M bool :=
  ASSERT_INITIALIZED device "adc_is_conversion_completed";;
  d ← deref device;
  f ← DMA_GetIrqFlag (DmaCfg.register_base (dma d)) (DmaCfg.channel (dma d)) BlkTrnCpltIrq;
  mret (bool_decide (f = Set_)).

(** The [while] loop of [adc_await_conversion_completed]; [fuel] bounds
    the number of polls. *)
Fixpoint adc_await_loop (fuel : nat) (device : N) : M unit :=
  match fuel with
  | O => halt OutOfFuel
  | S fuel' =>
      completed ← adc_is_conversion_completed device;
      if negb completed then yield;; adc_await_loop fuel' device
      else mret tt
  end.

Definition adc_await_conversion_completed (fuel : nat) (device : N) : M unit :=
  ASSERT_INITIALIZED device "adc_await_conversion_completed";;
  adc_await_loop fuel device.

Definition adc_conversion_read_result (device : N) (adc_channel : Z) : M Z :=
  ASSERT_INITIALIZED device "adc_conversion_read_result";;
  ASSERT_CHANNEL_ID device adc_channel;;
  d ← deref device;
  DMA_ClearIrqFlag (DmaCfg.register_base (dma d)) (DmaCfg.channel (dma d)) BlkTrnCpltIrq;;
  d' ← deref device;
  match conversion_results (state d') !! Z.to_nat adc_channel with
  | Some v => mret v
  | None => halt OutOfBounds
  end.

(** *** drivers/gpio/gpio.h *)

(** Modelled from the spec: [ASSERT_GPIO_PIN_VALID] of drivers/gpio/gpio.h,
    a header that is not embedded here: an assertion, like the others,
    that the pin number is below [BOARD_NR_GPIO_PINS]. *)
Definition ASSERT_GPIO_PIN_VALID (gpio_pin : N) (fn_name : string) : M unit :=
  CORE_ASSERT (bool_decide (gpio_pin < BOARD_NR_GPIO_PINS)%N)
    (GPIO_PIN_INVALID_MESSAGE fn_name).

(** Modelled from the spec: the GPIO wrappers of drivers/gpio/gpio.h.
    [GPIO_GetConfig] reads back the configuration that [GPIO_Init]
    wrote, [GPIO_SetFunc] selects the function of the pin,
    [GPIO_SetBits] and [GPIO_ResetBits] drive the output latch and
    [GPIO_GetBit] reads the input bit. *)
Definition GPIO_SetFunc (pin : N) (f : en_port_func_t) (sub : en_functional_state_t) : M unit :=
  vendor (Call_GPIO_SetFunc pin f sub);;
  modify (set_hw (set_gpio_func pin (f, sub))).

Definition GPIO_Init (pin : N) (cfg : stc_port_init_t) : M unit :=
  vendor (Call_GPIO_Init pin cfg);;
  modify (set_hw (set_gpio_cfg pin cfg)).

Definition GPIO_GetConfig (pin : N) : M stc_port_init_t :=
  vendor (Call_GPIO_GetConfig pin);;
  w ← get_world;
  mret (gpio_cfg (hw w) pin).

Definition GPIO_SetBits (pin : N) : M unit :=
  vendor (Call_GPIO_SetBits pin);;
  modify (set_hw (set_gpio_out pin true)).

Definition GPIO_ResetBits (pin : N) : M unit :=
  vendor (Call_GPIO_ResetBits pin);;
  modify (set_hw (set_gpio_out pin false)).

Definition GPIO_GetBit (pin : N) : M bool :=
  vendor (Call_GPIO_GetBit pin);;
  w ← get_world;
  mret (gpio_in (hw w) pin).

(** *** wiring_digital.cpp *)

(** [MEM_ZERO_STRUCT(pinConf)] *)
Definition MEM_ZERO_STRUCT : stc_port_init_t :=
  {| enPinMode := Pin_Mode_In; enPullUp := Disable |}.

Definition with_enPinMode (m : en_pin_mode_t) (c : stc_port_init_t) : stc_port_init_t :=
  {| enPinMode := m; enPullUp := enPullUp c |}.
Definition with_enPullUp (p : en_functional_state_t) (c : stc_port_init_t) : stc_port_init_t :=
  {| enPinMode := enPinMode c; enPullUp := p |}.

(** The [switch] of [pinMode]: the configuration it builds, or nothing
    when it leaves through [default]. *)
Definition pinMode_switch (dwMode : Z) (pinConf : stc_port_init_t)
    : M (option stc_port_init_t) :=
  if decide (dwMode = INPUT) then
    mret (Some (with_enPinMode Pin_Mode_In pinConf))
  else if decide (dwMode = INPUT_PULLUP) then
    mret (Some (with_enPullUp Enable (with_enPinMode Pin_Mode_In pinConf)))
  else if decide (dwMode = INPUT_ANALOG) then
    mret (Some (with_enPinMode Pin_Mode_Ana pinConf))
  else if decide (dwMode = OUTPUT) then
    mret (Some (with_enPinMode Pin_Mode_Out pinConf))
  else
    CORE_ASSERT_FAIL
      "pinMode: invalid pin mode. Must be INPUT, INPUT_PULLUP, INPUT_ANALOG or OUTPUT";;
    mret None.

(** Lines 15-34 of [pinMode]: if the pin has an ADC channel, configure
    the ADC according to the pin mode. *)
Definition pinMode_adc (dwPin : N) (dwMode : Z) : M unit :=
  let adc_device := adc_device (PIN_MAP dwPin) in
  let adc_channel := adc_channel (PIN_MAP dwPin) in
  match adc_device with
  | Some adc_device =>
      if decide (adc_channel ≠ ADC_PIN_INVALID) then
        if decide (dwMode = INPUT_ANALOG) then
          adc_device_init adc_device;;
          adc_enable_channel adc_device adc_channel ADC_SAMPLE_TIME_DEFAULT
        else
          adc_disable_channel adc_device adc_channel
      else mret tt
  | None => mret tt
  end.

(** Lines 36-61 of [pinMode]: build the pin configuration, then set the
    pin function and configuration, unless the [switch] returned. *)
Definition pinMode_gpio (dwPin : N) (dwMode : Z) : M unit :=
  pinConf ← pinMode_switch dwMode MEM_ZERO_STRUCT;
  match pinConf with
  | None => mret tt
  | Some pinConf =>
      GPIO_SetFunc dwPin Func_Gpio Enable;;
      GPIO_Init dwPin pinConf
  end.

Definition pinMode (dwPin : N) (dwMode : Z) : M unit :=
  ASSERT_GPIO_PIN_VALID dwPin "pinMode";;
  if decide (BOARD_NR_GPIO_PINS ≤ dwPin)%N then mret tt
  else
    pinMode_adc dwPin dwMode;;
    pinMode_gpio dwPin dwMode.

Definition getPinMode (dwPin : N) : M Z :=
  ASSERT_GPIO_PIN_VALID dwPin "getPinMode";;
  if decide (BOARD_NR_GPIO_PINS ≤ dwPin)%N then mret INPUT_FLOATING
  else
    pinConf ← GPIO_GetConfig dwPin;
    match enPinMode pinConf with
    | Pin_Mode_Out => mret OUTPUT
    | Pin_Mode_In =>
        mret (if decide (enPullUp pinConf = Enable) then INPUT_PULLUP else INPUT)
    | Pin_Mode_Ana => mret INPUT_ANALOG
    | Pin_Mode_Other _ =>
        CORE_ASSERT_FAIL "getPinMode: invalid pin mode detected";;
        mret INPUT_FLOATING
    end.

Definition digitalWrite (dwPin : N) (dwVal : Z) : M unit :=
  ASSERT_GPIO_PIN_VALID dwPin "digitalWrite";;
  if decide (BOARD_NR_GPIO_PINS ≤ dwPin)%N then mret tt
  else if decide (dwVal = HIGH) then GPIO_SetBits dwPin
  else GPIO_ResetBits dwPin.

Definition digitalRead (ulPin : N) : M Z :=
  ASSERT_GPIO_PIN_VALID ulPin "digitalRead";;
  if decide (BOARD_NR_GPIO_PINS ≤ ulPin)%N then mret LOW
  else
    bit ← GPIO_GetBit ulPin;
    mret (if bit : bool then HIGH else LOW).

(** *** Vocabulary of the statements *)

(** The block-transfer-complete flag of the DMA channel of a device. *)
Definition block_complete_flag (d : adc_device_t) (h : hardware) : en_flag_status_t :=
  dma_irq_flag h (DmaCfg.register_base (dma d), DmaCfg.channel (dma d), BlkTrnCpltIrq).

Definition poll_call (d : adc_device_t) : vendor_call :=
  Call_DMA_GetIrqFlag (DmaCfg.register_base (dma d)) (DmaCfg.channel (dma d)) BlkTrnCpltIrq.

Definition clear_call (d : adc_device_t) : vendor_call :=
  Call_DMA_ClearIrqFlag (DmaCfg.register_base (dma d)) (DmaCfg.channel (dma d)) BlkTrnCpltIrq.

(** One turn of the waiting loop that finds the flag unset: the poll,
    then [yield()]. *)
Definition waiting_turn (d : adc_device_t) (w : world) : world :=
  tick (set_hw (environment (ticks w))
          (log_call Call_yield (log_call (poll_call d) w))).

(** The world after [n] such turns. *)
Definition waiting (d : adc_device_t) (n : nat) (w : world) : world :=
  Nat.iter n (waiting_turn d) w.

(** The vendor calls of [adc_adc_init] and of [adc_dma_init], in order. *)
Definition adc_adc_init_calls (d : adc_device_t) : list vendor_call :=
  [ Call_PWC_Fcg3PeriphClockCmd (AdcCfg.clock_id (adc d)) Enable;
    Call_ADC_Init (AdcCfg.register_base (adc d))
      {| enResolution := resolution (init_params d);
         enDataAlign := data_alignment (init_params d);
         enAutoClear := AdcClren_Enable;
         enScanMode := scan_mode (init_params d);
         enRschsel := AdcRschsel_Restart |};
    Call_ADC_TriggerSrcCmd (AdcCfg.register_base (adc d))
      (AdcCfg.sequence (adc d)) Disable ].

Definition adc_dma_init_calls (device : N) (d : adc_device_t) : list vendor_call :=
  let base := DmaCfg.register_base (dma d) in
  let ch := DmaCfg.channel (dma d) in
  [ Call_PWC_Fcg0PeriphClockCmd (DmaCfg.clock_id (dma d)) Enable;
    Call_DMA_InitChannel base ch
      {| u16BlockSize := AdcCfg.channel_count (adc d);
         u16TransferCnt := 0;
         u32SrcAddr := Addr_DR0 (AdcCfg.register_base (adc d));
         u32DesAddr := Addr_conversion_results device;
         u16SrcRptSize := AdcCfg.channel_count (adc d);
         u16DesRptSize := AdcCfg.channel_count (adc d);
         stcDmaChCfg :=
           {| enSrcInc := AddressIncrease; enDesInc := AddressIncrease;
              enSrcRptEn := Enable; enDesRptEn := Enable;
              enSrcNseqEn := Disable; enDesNseqEn := Disable;
              enTrnWidth := Dma16Bit; enLlpEn := Disable;
              enIntEn := Disable |} |};
    Call_DMA_Cmd base Enable;
    Call_DMA_ChannelCmd base ch Enable;
    Call_DMA_ClearIrqFlag base ch TrnCpltIrq;
    Call_DMA_ClearIrqFlag base ch BlkTrnCpltIrq;
    Call_PWC_Fcg0PeriphClockCmd PWC_FCG0_PERIPH_AOS Enable;
    Call_DMA_SetTriggerSrc base ch (DmaCfg.event_source (dma d)) ].

(** The debug output of a debug build, nothing in a release build. *)
Definition debug_only (lines : list debug_line) : list debug_line :=
  match build with
  | Release => []
  | DebugLog | DebugAbort => lines
  end.

Definition adc_debug_line (d : adc_device_t) (fmt : string)
    (args : list printf_arg) : debug_line :=
  {| dbg_format := "[%s] " +:+ fmt;
     dbg_args := ArgStr (ADC_REG_TO_NAME (AdcCfg.register_base (adc d))) :: args |}.

(** The pin has an ADC channel: the test [pinMode] makes on [PIN_MAP]. *)
Definition adc_pin (dwPin : N) (device : N) (channel : Z) : Prop :=
  adc_device (PIN_MAP dwPin) = Some device
  ∧ adc_channel (PIN_MAP dwPin) = channel
  ∧ channel ≠ ADC_PIN_INVALID.

Definition no_adc_pin (dwPin : N) : Prop :=
  adc_device (PIN_MAP dwPin) = None
  ∨ adc_channel (PIN_MAP dwPin) = ADC_PIN_INVALID.

Definition valid_pin_mode (dwMode : Z) : Prop :=
  dwMode ∈ [INPUT; INPUT_PULLUP; INPUT_ANALOG; OUTPUT].

(** The channel that [PIN_MAP] gives the pin exists on its converter, and
    the sample time that [pinMode] passes on is positive: what the
    assertions of [adc_enable_channel] and [adc_disable_channel] check. *)
Definition adc_pin_well_formed (dwPin : N) (w : world) : Prop :=
  ∀ device channel, adc_pin dwPin device channel →
    0 ≤ channel < AdcCfg.channel_count (adc (devices w device))
    ∧ 0 < ADC_SAMPLE_TIME_DEFAULT.

Definition assert_line (message : string) : debug_line :=
  {| dbg_format := message; dbg_args := [] |}.


End Core.

(** ** Vocabulary of the invariants

    What a call may do to the world, as a relation between the world before
    and the world it ends in. *)

(** A device object keeps its configuration, and its [initialized] flag is
    never taken back. *)
Definition device_grows (d d' : adc_device_t) : Prop :=
  adc d' = adc d
  ∧ init_params d' = init_params d
  ∧ dma d' = dma d
  ∧ (initialized (state d) = true → initialized (state d') = true).

Definition devices_grow (w w' : world) : Prop :=
  ∀ p, device_grows (devices w p) (devices w' p).

(** Nothing but the log of calls, the console and the tick count changes. *)
Definition same_state (w w' : world) : Prop :=
  hw w' = hw w ∧ devices w' = devices w.

(** The GPIO side of the peripherals is as it was. *)
Definition gpio_untouched (w w' : world) : Prop :=
  gpio_func (hw w') = gpio_func (hw w)
  ∧ gpio_cfg (hw w') = gpio_cfg (hw w)
  ∧ gpio_out (hw w') = gpio_out (hw w)
  ∧ gpio_in (hw w') = gpio_in (hw w).

(** ... as it was on every pin but one, whose output latch and input bit
    are as they were too. *)
Definition gpio_untouched_but (pin : N) (w w' : world) : Prop :=
  gpio_out (hw w') = gpio_out (hw w)
  ∧ gpio_in (hw w') = gpio_in (hw w)
  ∧ ∀ q, q ≠ pin →
      gpio_func (hw w') q = gpio_func (hw w) q
      ∧ gpio_cfg (hw w') q = gpio_cfg (hw w) q.

(** The ADC side is as it was: the device objects and the DMA flags. *)
Definition adc_untouched (w w' : world) : Prop :=
  devices w' = devices w
  ∧ dma_irq_flag (hw w') = dma_irq_flag (hw w).

(** The pin that a call of the GPIO driver names. *)
Definition gpio_call_pin (c : vendor_call) : option N :=
  match c with
  | Call_GPIO_SetFunc pin _ _
  | Call_GPIO_Init pin _
  | Call_GPIO_GetConfig pin
  | Call_GPIO_SetBits pin
  | Call_GPIO_ResetBits pin
  | Call_GPIO_GetBit pin => Some pin
  | _ => None
  end.

(** The log of calls has grown, by calls that all satisfy [P]. *)
Definition calls_added (P : vendor_call → Prop) (w w' : world) : Prop :=
  ∃ calls, trace w' = trace w ++ calls ∧ Forall P calls.

(** A call keeps [R] between the world it starts in and the world it ends
    in, whether it returns or halts. *)
Definition preserves {A} (R : world → world → Prop) (m : M A) : Prop :=
  ∀ w, R w (final_world (m w)).



(** The peripherals do not change the block-transfer-complete flag of the
    device while [yield()] runs: no conversion is under way. *)
Definition flag_left_alone (environment : nat → hardware → hardware)
    (d : adc_device_t) : Prop :=
  ∀ t h, block_complete_flag d (environment t h) = block_complete_flag d h.

(** ** A board to run the code on

    A cut-down pin table in the manner of the HC32F460: pins 0 and 1 are
    channels 0 and 1 of the first converter, pin 2 is channel 4 of the
    second one, the other pins have no ADC channel. *)
Module ExampleBoard.

Definition ADC1_device : N := 1.
Definition ADC2_device : N := 2.

Definition pin_map (pin : N) : pin_info_t :=
  if decide (pin = 0%N) then {| adc_device := Some ADC1_device; adc_channel := 0 |}
  else if decide (pin = 1%N) then {| adc_device := Some ADC1_device; adc_channel := 1 |}
  else if decide (pin = 2%N) then {| adc_device := Some ADC2_device; adc_channel := 4 |}
  else {| adc_device := None; adc_channel := 255 |}.

Definition board : Board.
Proof.
  refine {|
    BOARD_NR_GPIO_PINS := 83;
    PIN_MAP := pin_map;
    ADC_PIN_INVALID := 255;
    INPUT := 0;
    INPUT_PULLUP := 2;
    INPUT_ANALOG := 4;
    OUTPUT := 1;
    INPUT_FLOATING := 0;
    HIGH := 1;
    LOW := 0;
    M4_ADC1 := 0x40040000;
    M4_ADC2 := 0x40040400;
    PWC_FCG0_PERIPH_AOS := 0x20000;
    ADC_SAMPLE_TIME_DEFAULT := 50;
    GPIO_PIN_INVALID_MESSAGE := λ fn, "invalid GPIO pin (calling " +:+ fn +:+ ")";
  |}.
  compute_done.
Defined.

Definition adc1 (init : bool) (results : list Z) : adc_device_t :=
  {| adc := {| AdcCfg.register_base := 0x40040000; AdcCfg.clock_id := 1;
               AdcCfg.sequence := 0; AdcCfg.channel_count := 17 |};
     init_params := {| resolution := 0; data_alignment := 0; scan_mode := 0 |};
     dma := {| DmaCfg.register_base := 0x40053000; DmaCfg.clock_id := 0x4000;
               DmaCfg.channel := 0; DmaCfg.event_source := 448 |};
     state := {| initialized := init; conversion_results := results |} |}.

Definition adc2 (init : bool) (results : list Z) : adc_device_t :=
  {| adc := {| AdcCfg.register_base := 0x40040400; AdcCfg.clock_id := 2;
               AdcCfg.sequence := 0; AdcCfg.channel_count := 9 |};
     init_params := {| resolution := 0; data_alignment := 0; scan_mode := 0 |};
     dma := {| DmaCfg.register_base := 0x40053000; DmaCfg.clock_id := 0x4000;
               DmaCfg.channel := 1; DmaCfg.event_source := 464 |};
     state := {| initialized := init; conversion_results := results |} |}.

Definition reset_hardware : hardware :=
  {| dma_irq_flag := λ _, Reset;
     gpio_func := λ _, (Func_Other 15, Disable);
     gpio_cfg := λ _, {| enPinMode := Pin_Mode_Ana; enPullUp := Disable |};
     gpio_out := λ _, false;
     gpio_in := λ pin, bool_decide (pin = 7%N) |}.

(** After reset: no device is initialized. *)
Definition world0 : world :=
  {| hw := reset_hardware;
     devices := λ p, if decide (p = ADC2_device) then adc2 false (replicate 9 0)
                     else adc1 false (replicate 17 0);
     trace := [];
     console := [];
     ticks := 0 |}.

(** The first converter is initialized and holds a sample per channel. *)
Definition world1 : world :=
  {| hw := reset_hardware;
     devices := λ p, if decide (p = ADC2_device) then adc2 false (replicate 9 0)
                     else adc1 true (map (λ n, 100 + Z.of_nat n) (seq 0 17));
     trace := [];
     console := [];
     ticks := 0 |}.

(** The DMA engine of the first converter completes its block during the
    second [yield()]. *)
Definition dma_done_at_second_yield (t : nat) (h : hardware) : hardware :=
  if decide (t = 1%nat) then set_dma_irq_flag (0x40053000, 0, BlkTrnCpltIrq) Set_ h
  else h.

(** A DMA engine that never completes. *)
Definition dma_stalled (t : nat) (h : hardware) : hardware := h.

End ExampleBoard.

(** Two more worlds on the example board. *)
Module ExampleWorlds.
Import ExampleBoard.

(** The first converter is initialized, and the completion flag of an
    earlier conversion is still set. *)
Definition world_stale : world :=
  set_hw (set_dma_irq_flag (0x40053000, 0, BlkTrnCpltIrq) Set_) world1.

(** Pin 3 is an output with its pull-up on. *)
Definition world_output : world :=
  set_hw (set_gpio_cfg 3 {| enPinMode := Pin_Mode_Out; enPullUp := Enable |}) world0.


End ExampleWorlds.

(** * Properties *)

Create HintDb driver discriminated.

#[global] Hint Unfold
  CORE_DEBUG_PRINTF CORE_ASSERT_FAIL CORE_ASSERT vendor
  PWC_Fcg3PeriphClockCmd PWC_Fcg0PeriphClockCmd ADC_Init ADC_TriggerSrcCmd
  ADC_AddAdcChannel ADC_DelAdcChannel ADC_StartConvert DMA_InitChannel DMA_Cmd
  DMA_ChannelCmd DMA_SetTriggerSrc DMA_ClearIrqFlag DMA_GetIrqFlag yield deref
  ASSERT_CHANNEL_ID ASSERT_INITIALIZED ADC_DEBUG_PRINTF adc_adc_init
  adc_dma_init adc_device_init adc_channel_to_mask adc_enable_channel
  adc_disable_channel adc_start_conversion adc_is_conversion_completed
  adc_await_conversion_completed adc_conversion_read_result
  ASSERT_GPIO_PIN_VALID GPIO_SetFunc GPIO_Init GPIO_GetConfig GPIO_SetBits
  GPIO_ResetBits GPIO_GetBit pinMode_switch pinMode getPinMode digitalWrite
  digitalRead : driver.

#[global] Hint Unfold mbind M_bind mret M_ret halt modify get_world : driver.

(** Run straight-line driver code symbolically. *)
Ltac run := autounfold with driver; cbn beta iota.


(** Split on every test that is left in the goal, running the code in
    between. *)
Ltac split_tests :=
  repeat (cbn; match goal with
               | |- context [if ?b then _ else _] => destruct b
               | |- context [match ?o with Some _ => _ | None => _ end] => destruct o
               end).

(** Bring the log of a run into the shape [trace w ++ calls] and check the
    calls one by one. *)
Ltac check_calls :=
  unfold calls_added; cbn; eexists;
  split;
  [ first [ symmetry; apply app_nil_r | rewrite <- ?app_assoc; reflexivity ]
  | repeat constructor ].

Section Properties.
Context `{Board}.
Implicit Types (build : build_t) (device : N) (w : world).

Lemma channel_id_check (channel count : Z) :
  0 ≤ channel < count → (0 <=? channel) && (channel <? count) = true.
Proof. intros [??]. apply andb_true_intro. split; [apply Z.leb_le | apply Z.ltb_lt]; done. Qed.

Lemma channel_mask_exact (channel : Z) :
  0 ≤ channel < 32 → Z.shiftl 1 channel mod 2 ^ 32 = Z.shiftl 1 channel.
Proof.
  intros [Hlo Hhi]. rewrite Z.shiftl_1_l. apply Z.mod_small. split.
  - apply Z.pow_nonneg. lia.
  - apply Z.pow_lt_mono_r; lia.
Qed.


(** *** Sequencing *)

Lemma bind_Ok {A B} (m : M A) (f : A → M B) w a w' :
  m w = Ok a w' → (m ≫= f) w = f a w'.
Proof. intros Hm. unfold mbind, M_bind. by rewrite Hm. Qed.

Lemma bind_Halt {A B} (m : M A) (f : A → M B) w h w' :
  m w = Halt h w' → (m ≫= f) w = Halt h w'.
Proof. intros Hm. unfold mbind, M_bind. by rewrite Hm. Qed.

(** *** The ADC driver, one function at a time

    In a build whose assertions do not abort, a function goes on whatever
    its assertions find; the hypotheses below are needed by the aborting
    build only. *)

Lemma adc_device_init_run build device w :
  ∃ w',
    adc_device_init build device w = Ok tt w'
    ∧ trace w' = trace w ++
        (if initialized (state (devices w device)) then []
         else adc_adc_init_calls (devices w device)
                ++ adc_dma_init_calls device (devices w device))
    ∧ devices w' =
        (if initialized (state (devices w device)) then devices w
         else alter (set_initialized true) device (devices w))
    ∧ gpio_func (hw w') = gpio_func (hw w)
    ∧ gpio_cfg (hw w') = gpio_cfg (hw w).
Proof.
  run. destruct (initialized (state (devices w device))) eqn:Hinit.
  - eexists. split; [done|]. by rewrite app_nil_r.
  - destruct build; (eexists; split; [done|]); cbn; by rewrite <- !app_assoc.
Qed.

Lemma adc_enable_channel_run build device (adc_channel sample_time : Z) w :
  (build = DebugAbort →
     initialized (state (devices w device)) = true
     ∧ 0 ≤ adc_channel < AdcCfg.channel_count (adc (devices w device))
     ∧ 0 < sample_time) →
  ∃ w',
    adc_enable_channel build device adc_channel sample_time w = Ok tt w'
    ∧ trace w' = trace w ++
        [Call_ADC_AddAdcChannel (AdcCfg.register_base (adc (devices w device)))
           {| u32Channel := Z.shiftl 1 adc_channel mod 2 ^ 32;
              u8Sequence := AdcCfg.sequence (adc (devices w device));
              pu8SampTime := sample_time |}]
    ∧ hw w' = hw w
    ∧ devices w' = devices w.
Proof.
  intros Hok. run. destruct build.
  3: { destruct Hok as (-> & Hch & Hst); [done|].
       rewrite (channel_id_check _ _ Hch).
       replace (0 <? sample_time) with true by (symmetry; by apply Z.ltb_lt).
       cbn. rewrite (channel_id_check _ _ Hch). by eexists. }
  all: repeat (cbn; match goal with |- context [if ?b then _ else _] => destruct b end).
  all: by eexists.
Qed.

Lemma adc_disable_channel_run build device (adc_channel : Z) w :
  (build = DebugAbort →
     initialized (state (devices w device)) = true →
     0 ≤ adc_channel < AdcCfg.channel_count (adc (devices w device))) →
  ∃ w',
    adc_disable_channel build device adc_channel w = Ok tt w'
    ∧ trace w' = trace w ++
        (if initialized (state (devices w device)) then
           [Call_ADC_DelAdcChannel (AdcCfg.register_base (adc (devices w device)))
              (Z.shiftl 1 adc_channel mod 2 ^ 32)]
         else [])
    ∧ hw w' = hw w
    ∧ devices w' = devices w
    ∧ (build = Release → console w' = console w).
Proof.
  intros Hok. run. destruct (initialized (state (devices w device))) eqn:Hinit; cbn.
  2: { eexists. split; [done|]. by rewrite app_nil_r. }
  destruct build.
  3: { rewrite (channel_id_check _ _ (Hok eq_refl eq_refl)). cbn.
       rewrite (channel_id_check _ _ (Hok eq_refl eq_refl)). by eexists. }
  all: repeat (cbn; match goal with |- context [if ?b then _ else _] => destruct b end).
  all: by eexists.
Qed.

(** *** Conversions *)

(** C3: on an initialized device, [adc_is_conversion_completed] returns
    true exactly when the block-transfer-complete flag of the DMA channel
    of the device is set, and it is a pure poll: one call of
    [DMA_GetIrqFlag], no change to the peripherals or to the devices. *)
Theorem adc_is_conversion_completed_polls build device w :
  initialized (state (devices w device)) = true →
  ∃ completed w',
    adc_is_conversion_completed build device w = Ok completed w'
    ∧ (completed = true ↔ block_complete_flag (devices w device) (hw w) = Set_)
    ∧ hw w' = hw w
    ∧ devices w' = devices w
    ∧ console w' = console w
    ∧ ticks w' = ticks w
    ∧ trace w' = trace w ++ [poll_call (devices w device)].
Proof.
  intros Hinit. eexists _, _. split.
  - run. rewrite Hinit. reflexivity.
  - cbn. split; [apply bool_decide_eq_true | done].
Qed.

(** C4: on an initialized device and a channel of the device,
    [adc_conversion_read_result] returns the entry of [conversion_results]
    at the channel; it clears the block-transfer-complete flag (and no
    other flag) before the read and leaves the buffer as it was. *)
Theorem adc_conversion_read_result_reads build device (adc_channel v : Z) w :
  initialized (state (devices w device)) = true →
  0 ≤ adc_channel < AdcCfg.channel_count (adc (devices w device)) →
  conversion_results (state (devices w device)) !! Z.to_nat adc_channel = Some v →
  ∃ w',
    adc_conversion_read_result build device adc_channel w = Ok v w'
    ∧ block_complete_flag (devices w device) (hw w') = Reset
    ∧ (∀ k, k ≠ (DmaCfg.register_base (dma (devices w device)),
                 DmaCfg.channel (dma (devices w device)), BlkTrnCpltIrq) →
            dma_irq_flag (hw w') k = dma_irq_flag (hw w) k)
    ∧ gpio_cfg (hw w') = gpio_cfg (hw w)
    ∧ devices w' = devices w
    ∧ console w' = console w
    ∧ trace w' = trace w ++ [clear_call (devices w device)].
Proof.
  intros Hinit Hch Hv. eexists. split.
  - run. rewrite Hinit, (channel_id_check _ _ Hch). cbn. rewrite Hv. reflexivity.
  - cbn. unfold block_complete_flag. cbn. rewrite fn_lookup_insert.
    repeat split; try done. intros k Hk. by rewrite fn_lookup_insert_ne.
Qed.

(** C7: on an initialized device, a channel of the device and a positive
    sample time no assertion of [adc_enable_channel] fires, and the
    function calls [ADC_AddAdcChannel] once, with the mask [1 << channel]
    (as a 32-bit value), the sequence of the device and the sample
    time. *)
Theorem adc_enable_channel_adds_channel build device (adc_channel sample_time : Z) w :
  initialized (state (devices w device)) = true →
  0 ≤ adc_channel < AdcCfg.channel_count (adc (devices w device)) →
  0 < sample_time →
  ∃ w',
    adc_enable_channel build device adc_channel sample_time w = Ok tt w'
    ∧ trace w' = trace w ++
        [Call_ADC_AddAdcChannel (AdcCfg.register_base (adc (devices w device)))
           {| u32Channel := Z.shiftl 1 adc_channel mod 2 ^ 32;
              u8Sequence := AdcCfg.sequence (adc (devices w device));
              pu8SampTime := sample_time |}]
    ∧ (adc_channel < 32 → Z.shiftl 1 adc_channel mod 2 ^ 32 = Z.shiftl 1 adc_channel)
    ∧ console w' = console w ++
        debug_only build
          [adc_debug_line (devices w device) "enable channel %d, sample_time=%d\n"
             [ArgInt adc_channel; ArgInt sample_time]]
    ∧ hw w' = hw w
    ∧ devices w' = devices w.
Proof.
  intros Hinit Hch Hst. destruct build; eexists.
  all: split; [run|].
  all: rewrite ?Hinit, ?(channel_id_check _ _ Hch).
  all: replace (0 <? sample_time) with true in * by (symmetry; by apply Z.ltb_lt).
  all: cbn; rewrite ?(channel_id_check _ _ Hch); try reflexivity.
  all: rewrite ?app_nil_r; repeat split; try done.
  all: intros; apply channel_mask_exact; lia.
Qed.
(** C8: [adc_device_init] does nothing on an initialized device; on any
    other it makes the calls of the ADC init, then those of the DMA init,
    and sets the flag, so that a second call does nothing. *)
Theorem adc_device_init_idempotent build device w :
  if initialized (state (devices w device)) then
    adc_device_init build device w = Ok tt w
  else
    ∃ w',
      adc_device_init build device w = Ok tt w'
      ∧ trace w' = trace w ++ adc_adc_init_calls (devices w device)
                           ++ adc_dma_init_calls device (devices w device)
      ∧ devices w' device = set_initialized true (devices w device)
      ∧ (∀ other, other ≠ device → devices w' other = devices w other)
      ∧ console w' = console w ++
          debug_only build [adc_debug_line (devices w device) "initialized device\n" []]
      ∧ adc_device_init build device w' = Ok tt w'.
Proof.
  destruct (initialized (state (devices w device))) eqn:Hinit.
  - run. by rewrite Hinit.
  - destruct build; eexists.
    all: split; [run; rewrite Hinit; reflexivity|].
    all: cbn; rewrite ?fn_lookup_alter, ?app_nil_r, <- ?app_assoc.
    all: repeat split; try done.
    all: try (intros other Hne; by rewrite fn_lookup_alter_ne).
    all: run; cbn; rewrite fn_lookup_alter; reflexivity.
Qed.


(** *** The waiting loop *)

Section Waiting.
Variable environment : nat → hardware → hardware.
Variable build : build_t.
Variable device : N.

Lemma waiting_S d n w : waiting environment d (S n) w = waiting environment d n (waiting_turn environment d w).
Proof. unfold waiting. apply Nat.iter_succ_r. Qed.

Lemma waiting_devices d n w : devices (waiting environment d n w) = devices w.
Proof. induction n as [|n IH]; [done|]. unfold waiting in *. by cbn. Qed.

Lemma waiting_console d n w : console (waiting environment d n w) = console w.
Proof. induction n as [|n IH]; [done|]. unfold waiting in *. by cbn. Qed.

Lemma waiting_ticks d n w : ticks (waiting environment d n w) = (ticks w + n)%nat.
Proof.
  revert w. induction n as [|n IH]; intros w.
  - cbn. lia.
  - rewrite waiting_S, IH. cbn. lia.
Qed.

Lemma waiting_trace d n w :
  trace (waiting environment d n w) = trace w ++ concat (replicate n [poll_call d; Call_yield]).
Proof.
  revert w. induction n as [|n IH]; intros w.
  - cbn. by rewrite app_nil_r.
  - rewrite waiting_S, IH. cbn. by rewrite <- !app_assoc.
Qed.

(** One unfolding of the loop, for a device that is initialized. *)
Lemma adc_await_loop_unfold fuel w :
  initialized (state (devices w device)) = true →
  adc_await_loop build environment (S fuel) device w =
    match block_complete_flag (devices w device) (hw w) with
    | Set_ => Ok tt (log_call (poll_call (devices w device)) w)
    | Reset => adc_await_loop build environment fuel device
                 (waiting_turn environment (devices w device) w)
    end.
Proof.
  intros Hinit. cbn [adc_await_loop]. run. rewrite Hinit.
  unfold block_complete_flag. cbn.
  by destruct (dma_irq_flag _ _).
Qed.

Lemma adc_await_loop_completes n : ∀ fuel w,
  initialized (state (devices w device)) = true →
  (∀ k, (k < n)%nat →
     block_complete_flag (devices w device) (hw (waiting environment (devices w device) k w)) = Reset) →
  block_complete_flag (devices w device) (hw (waiting environment (devices w device) n w)) = Set_ →
  (n < fuel)%nat →
  adc_await_loop build environment fuel device w =
    Ok tt (log_call (poll_call (devices w device)) (waiting environment (devices w device) n w)).
Proof.
  induction n as [|n IH]; intros fuel w Hinit Hwait Hdone Hfuel.
  - destruct fuel as [|fuel]; [lia|].
    rewrite adc_await_loop_unfold by done. cbn in Hdone. by rewrite Hdone.
  - destruct fuel as [|fuel]; [lia|].
    rewrite adc_await_loop_unfold by done.
    rewrite (Hwait 0%nat ltac:(lia) : block_complete_flag _ (hw w) = Reset).
    set (d := devices w device) in *.
    assert (Hd : devices (waiting_turn environment d w) device = d) by done.
    rewrite waiting_S. rewrite <- Hd at 1 3. apply IH.
    + by rewrite Hd.
    + intros k Hk. rewrite Hd, <- waiting_S. apply Hwait. lia.
    + by rewrite Hd, <- waiting_S.
    + lia.
Qed.

Lemma adc_await_loop_starves fuel : ∀ w,
  initialized (state (devices w device)) = true →
  (∀ k, (k < fuel)%nat →
     block_complete_flag (devices w device) (hw (waiting environment (devices w device) k w)) = Reset) →
  adc_await_loop build environment fuel device w =
    Halt OutOfFuel (waiting environment (devices w device) fuel w).
Proof.
  induction fuel as [|fuel IH]; intros w Hinit Hwait; [done|].
  rewrite adc_await_loop_unfold by done.
  rewrite (Hwait 0%nat ltac:(lia) : block_complete_flag _ (hw w) = Reset).
  set (d := devices w device) in *.
  assert (Hd : devices (waiting_turn environment d w) device = d) by done.
  rewrite waiting_S. rewrite <- Hd at 1 2. apply IH.
  - by rewrite Hd.
  - intros k Hk. rewrite Hd, <- waiting_S. apply Hwait. lia.
Qed.

(** The first poll among the next [fuel] ones that finds the flag set,
    if there is one. *)
Lemma first_completed_poll d w fuel :
  (∀ k, (k < fuel)%nat → block_complete_flag d (hw (waiting environment d k w)) = Reset)
  ∨ ∃ n, (n < fuel)%nat
      ∧ block_complete_flag d (hw (waiting environment d n w)) = Set_
      ∧ ∀ k, (k < n)%nat → block_complete_flag d (hw (waiting environment d k w)) = Reset.
Proof.
  induction fuel as [|fuel [IH|(n & Hn & Hset & Hbefore)]].
  - left. lia.
  - destruct (block_complete_flag d (hw (waiting environment d fuel w))) eqn:Hflag.
    + left. intros k Hk. destruct (decide (k = fuel)) as [->|]; [done|].
      apply IH. lia.
    + right. exists fuel. auto.
  - right. exists n. split_and!; [lia|done..].
Qed.
End Waiting.

(** C2: on an initialized device, [adc_await_conversion_completed]
    returns only with the block-transfer-complete flag set, after one
    poll and one [yield()] for every poll that found it unset; it does
    return as soon as a poll finds the flag set, and never before. *)
Theorem adc_await_conversion_completed_waits build environment device w :
  initialized (state (devices w device)) = true →
  let d := devices w device in
  let flag_at n := block_complete_flag d (hw (waiting environment d n w)) in
  (∀ fuel w',
      adc_await_conversion_completed build environment fuel device w = Ok tt w' →
      block_complete_flag d (hw w') = Set_
      ∧ ∃ n, (n < fuel)%nat
          ∧ (∀ k, (k < n)%nat → flag_at k = Reset)
          ∧ flag_at n = Set_
          ∧ trace w' = trace w ++ concat (replicate n [poll_call d; Call_yield])
                               ++ [poll_call d]
          ∧ ticks w' = (ticks w + n)%nat
          ∧ devices w' = devices w)
  ∧ (∀ n fuel,
      flag_at n = Set_ → (∀ k, (k < n)%nat → flag_at k = Reset) → (n < fuel)%nat →
      adc_await_conversion_completed build environment fuel device w =
        Ok tt (log_call (poll_call d) (waiting environment d n w)))
  ∧ (∀ fuel,
      (∀ k, (k < fuel)%nat → flag_at k = Reset) →
      adc_await_conversion_completed build environment fuel device w =
        Halt OutOfFuel (waiting environment d fuel w)).
Proof.
  intros Hinit d flag_at.
  assert (Hentry : ∀ fuel,
    adc_await_conversion_completed build environment fuel device w =
      adc_await_loop build environment fuel device w).
  { intros fuel. unfold adc_await_conversion_completed. run. by rewrite Hinit. }
  split_and!.
  - intros fuel w' Hrun. rewrite Hentry in Hrun.
    destruct (first_completed_poll environment d w fuel)
      as [Hnever|(n & Hn & Hset & Hbefore)].
    + rewrite adc_await_loop_starves in Hrun by done. discriminate.
    + rewrite (adc_await_loop_completes _ _ _ n) in Hrun by done.
      injection Hrun as <-. split; [done|]. exists n. split_and!; try done.
      * cbn. by rewrite waiting_trace, <- app_assoc.
      * cbn. apply waiting_ticks.
      * cbn. apply waiting_devices.
  - intros n fuel Hset Hbefore Hn. rewrite Hentry.
    by apply adc_await_loop_completes.
  - intros fuel Hnever. rewrite Hentry. by apply adc_await_loop_starves.
Qed.


(** *** The digital pin API *)

Lemma pin_modes_ne :
  INPUT ≠ INPUT_PULLUP ∧ INPUT ≠ INPUT_ANALOG ∧ INPUT ≠ OUTPUT
  ∧ INPUT_PULLUP ≠ INPUT_ANALOG ∧ INPUT_PULLUP ≠ OUTPUT
  ∧ INPUT_ANALOG ≠ OUTPUT.
Proof.
  pose proof pin_modes_distinct as Hnd.
  rewrite !list.NoDup_cons, !not_elem_of_cons in Hnd. tauto.
Qed.

Lemma valid_pin_mode_cases dwMode :
  valid_pin_mode dwMode ↔
  dwMode = INPUT ∨ dwMode = INPUT_PULLUP ∨ dwMode = INPUT_ANALOG ∨ dwMode = OUTPUT.
Proof.
  unfold valid_pin_mode. rewrite !elem_of_cons, elem_of_nil. tauto.
Qed.

Lemma ASSERT_GPIO_PIN_VALID_passes build pin fn_name w :
  (pin < BOARD_NR_GPIO_PINS)%N →
  ASSERT_GPIO_PIN_VALID build pin fn_name w = Ok tt w.
Proof.
  intros Hpin. unfold ASSERT_GPIO_PIN_VALID, CORE_ASSERT.
  by rewrite bool_decide_eq_true_2.
Qed.

Lemma ASSERT_GPIO_PIN_VALID_fails build pin fn_name w :
  (BOARD_NR_GPIO_PINS ≤ pin)%N →
  ASSERT_GPIO_PIN_VALID build pin fn_name w =
    match build with
    | Release => Ok tt w
    | DebugLog => Ok tt (log_console (assert_line (GPIO_PIN_INVALID_MESSAGE fn_name)) w)
    | DebugAbort => Halt (AssertFailed (GPIO_PIN_INVALID_MESSAGE fn_name)) w
    end.
Proof.
  intros Hpin. unfold ASSERT_GPIO_PIN_VALID, CORE_ASSERT.
  rewrite bool_decide_eq_false_2 by lia. by destruct build.
Qed.

(** The [switch] of [pinMode] on the four modes it knows. *)
Lemma pinMode_switch_valid build dwMode w :
  valid_pin_mode dwMode →
  ∃ pinConf,
    pinMode_switch build dwMode MEM_ZERO_STRUCT w = Ok (Some pinConf) w
    ∧ (dwMode = INPUT → pinConf = {| enPinMode := Pin_Mode_In; enPullUp := Disable |})
    ∧ (dwMode = INPUT_PULLUP → pinConf = {| enPinMode := Pin_Mode_In; enPullUp := Enable |})
    ∧ (dwMode = INPUT_ANALOG → pinConf = {| enPinMode := Pin_Mode_Ana; enPullUp := Disable |})
    ∧ (dwMode = OUTPUT → pinConf = {| enPinMode := Pin_Mode_Out; enPullUp := Disable |}).
Proof.
  destruct pin_modes_ne as (? & ? & ? & ? & ? & ?).
  intros [-> | [-> | [-> | ->]]]%valid_pin_mode_cases; unfold pinMode_switch.
  all: repeat case_decide; try congruence.
  all: eexists; split; [reflexivity|]; split_and!; intros; (reflexivity || congruence).
Qed.

Lemma pinMode_gpio_valid build pin dwMode w :
  valid_pin_mode dwMode →
  ∃ pinConf w',
    pinMode_gpio build pin dwMode w = Ok tt w'
    ∧ (dwMode = INPUT → pinConf = {| enPinMode := Pin_Mode_In; enPullUp := Disable |})
    ∧ (dwMode = INPUT_PULLUP → pinConf = {| enPinMode := Pin_Mode_In; enPullUp := Enable |})
    ∧ (dwMode = INPUT_ANALOG → pinConf = {| enPinMode := Pin_Mode_Ana; enPullUp := Disable |})
    ∧ (dwMode = OUTPUT → pinConf = {| enPinMode := Pin_Mode_Out; enPullUp := Disable |})
    ∧ trace w' = trace w ++ [Call_GPIO_SetFunc pin Func_Gpio Enable; Call_GPIO_Init pin pinConf]
    ∧ gpio_func (hw w') pin = (Func_Gpio, Enable)
    ∧ gpio_cfg (hw w') pin = pinConf
    ∧ devices w' = devices w.
Proof.
  intros (pinConf & Hswitch & Hmap)%(pinMode_switch_valid build dwMode w).
  exists pinConf. eexists. split.
  - unfold pinMode_gpio. rewrite (bind_Ok _ _ _ _ _ Hswitch). run. reflexivity.
  - destruct Hmap as (? & ? & ? & ?). split_and!; try done.
    + cbn. by rewrite <- app_assoc.
    + cbn. apply fn_lookup_insert.
    + cbn. apply fn_lookup_insert.
Qed.

(** ... and on any other mode: the assertion, then [return]. *)
Lemma pinMode_gpio_invalid build pin dwMode w :
  ¬ valid_pin_mode dwMode →
  pinMode_gpio build pin dwMode w =
    CORE_ASSERT_FAIL build
      "pinMode: invalid pin mode. Must be INPUT, INPUT_PULLUP, INPUT_ANALOG or OUTPUT" w.
Proof.
  rewrite valid_pin_mode_cases. intros Hmode.
  unfold pinMode_gpio, pinMode_switch.
  repeat case_decide; try tauto.
  by destruct build.
Qed.

Lemma pinMode_adc_none build pin dwMode w :
  no_adc_pin pin → pinMode_adc build pin dwMode w = Ok tt w.
Proof.
  unfold pinMode_adc. intros [-> | Hch]; [done|].
  destruct (adc_device (PIN_MAP pin)); [|done].
  by rewrite decide_False by tauto.
Qed.

Lemma pinMode_adc_analog build pin device channel w :
  adc_pin pin device channel →
  (build = DebugAbort →
     0 ≤ channel < AdcCfg.channel_count (adc (devices w device))
     ∧ 0 < ADC_SAMPLE_TIME_DEFAULT) →
  ∃ w',
    pinMode_adc build pin INPUT_ANALOG w = Ok tt w'
    ∧ trace w' = trace w ++
        (if initialized (state (devices w device)) then []
         else adc_adc_init_calls (devices w device)
                ++ adc_dma_init_calls device (devices w device))
        ++ [Call_ADC_AddAdcChannel (AdcCfg.register_base (adc (devices w device)))
              {| u32Channel := Z.shiftl 1 channel mod 2 ^ 32;
                 u8Sequence := AdcCfg.sequence (adc (devices w device));
                 pu8SampTime := ADC_SAMPLE_TIME_DEFAULT |}]
    ∧ initialized (state (devices w' device)) = true
    ∧ gpio_func (hw w') = gpio_func (hw w)
    ∧ gpio_cfg (hw w') = gpio_cfg (hw w).
Proof.
  intros (Hdev & Hch & Hvalid) Hok. unfold pinMode_adc.
  rewrite Hdev, Hch, decide_True, decide_True by done.
  destruct (adc_device_init_run build device w)
    as (w1 & Hinit & Htrace1 & Hdevs1 & Hfunc1 & Hcfg1).
  assert (adc (devices w1 device) = adc (devices w device)
          ∧ initialized (state (devices w1 device)) = true) as [Hadc1 Hinit1].
  { rewrite Hdevs1. destruct (initialized (state (devices w device))) eqn:E; [done|].
    by rewrite fn_lookup_alter. }
  destruct (adc_enable_channel_run build device channel ADC_SAMPLE_TIME_DEFAULT w1)
    as (w2 & Henable & Htrace2 & Hhw2 & Hdevs2).
  { intros Hb. rewrite Hadc1. split; [done|]. by apply Hok. }
  exists w2. split; [by rewrite (bind_Ok _ _ _ _ _ Hinit)|].
  rewrite Htrace2, Htrace1, Hadc1, Hdevs2, Hhw2, <- app_assoc. done.
Qed.

Lemma pinMode_adc_other build pin dwMode device channel w :
  adc_pin pin device channel →
  dwMode ≠ INPUT_ANALOG →
  (build = DebugAbort →
     initialized (state (devices w device)) = true →
     0 ≤ channel < AdcCfg.channel_count (adc (devices w device))) →
  ∃ w',
    pinMode_adc build pin dwMode w = Ok tt w'
    ∧ trace w' = trace w ++
        (if initialized (state (devices w device)) then
           [Call_ADC_DelAdcChannel (AdcCfg.register_base (adc (devices w device)))
              (Z.shiftl 1 channel mod 2 ^ 32)]
         else [])
    ∧ hw w' = hw w
    ∧ devices w' = devices w
    ∧ (build = Release → console w' = console w).
Proof.
  intros (Hdev & Hch & Hvalid) Hmode Hok. unfold pinMode_adc.
  rewrite Hdev, Hch, decide_True, decide_False by done.
  by apply adc_disable_channel_run.
Qed.

Lemma adc_pin_or_not pin :
  no_adc_pin pin ∨ ∃ device channel, adc_pin pin device channel.
Proof.
  unfold no_adc_pin, adc_pin.
  destruct (adc_device (PIN_MAP pin)) as [device|]; [|left; by left].
  destruct (decide (adc_channel (PIN_MAP pin) = ADC_PIN_INVALID)); [left; by right|].
  right. eauto.
Qed.

Lemma adc_pin_unique pin device channel device' channel' :
  adc_pin pin device channel → adc_pin pin device' channel' →
  device' = device ∧ channel' = channel.
Proof. unfold adc_pin. intros (? & ? & ?) (? & ? & ?). split; congruence. Qed.

Lemma adc_pin_not_none pin device channel :
  adc_pin pin device channel → no_adc_pin pin → False.
Proof. unfold adc_pin, no_adc_pin. intros (? & ? & ?) [?|?]; congruence. Qed.

(** The whole of [pinMode] on a pin of the board and one of the four
    modes. *)
Lemma pinMode_run build pin dwMode w :
  (pin < BOARD_NR_GPIO_PINS)%N →
  valid_pin_mode dwMode →
  (build = DebugAbort → adc_pin_well_formed pin w) →
  ∃ pinConf adc_calls w',
    pinMode build pin dwMode w = Ok tt w'
    ∧ (dwMode = INPUT → pinConf = {| enPinMode := Pin_Mode_In; enPullUp := Disable |})
    ∧ (dwMode = INPUT_PULLUP → pinConf = {| enPinMode := Pin_Mode_In; enPullUp := Enable |})
    ∧ (dwMode = INPUT_ANALOG → pinConf = {| enPinMode := Pin_Mode_Ana; enPullUp := Disable |})
    ∧ (dwMode = OUTPUT → pinConf = {| enPinMode := Pin_Mode_Out; enPullUp := Disable |})
    ∧ trace w' = trace w ++ adc_calls
                   ++ [Call_GPIO_SetFunc pin Func_Gpio Enable; Call_GPIO_Init pin pinConf]
    ∧ gpio_func (hw w') pin = (Func_Gpio, Enable)
    ∧ gpio_cfg (hw w') pin = pinConf
    ∧ (no_adc_pin pin → adc_calls = [] ∧ devices w' = devices w)
    ∧ (∀ device channel, adc_pin pin device channel →
         if decide (dwMode = INPUT_ANALOG) then
           adc_calls =
             (if initialized (state (devices w device)) then []
              else adc_adc_init_calls (devices w device)
                     ++ adc_dma_init_calls device (devices w device))
             ++ [Call_ADC_AddAdcChannel (AdcCfg.register_base (adc (devices w device)))
                   {| u32Channel := Z.shiftl 1 channel mod 2 ^ 32;
                      u8Sequence := AdcCfg.sequence (adc (devices w device));
                      pu8SampTime := ADC_SAMPLE_TIME_DEFAULT |}]
           ∧ initialized (state (devices w' device)) = true
         else
           adc_calls =
             (if initialized (state (devices w device)) then
                [Call_ADC_DelAdcChannel (AdcCfg.register_base (adc (devices w device)))
                   (Z.shiftl 1 channel mod 2 ^ 32)]
              else [])
           ∧ devices w' = devices w).
Proof.
  intros Hpin Hmode Hok. unfold pinMode.
  rewrite (bind_Ok _ _ _ _ _ (ASSERT_GPIO_PIN_VALID_passes build pin _ w Hpin)).
  rewrite decide_False by lia.
  destruct (adc_pin_or_not pin) as [Hnone | (device & channel & Hadc)].
  - (* no ADC channel on this pin *)
    rewrite (bind_Ok _ _ _ _ _ (pinMode_adc_none build pin dwMode w Hnone)).
    destruct (pinMode_gpio_valid build pin dwMode w Hmode)
      as (pinConf & w' & Hgpio & ? & ? & ? & ? & Htrace & ? & ? & ?).
    exists pinConf, [], w'. split_and!; try done.
    intros device channel Hadc. destruct (adc_pin_not_none _ _ _ Hadc Hnone).
  - destruct (decide (dwMode = INPUT_ANALOG)) as [-> | Hother].
    + (* analog input: initialize the converter, enable the channel *)
      destruct (pinMode_adc_analog build pin device channel w Hadc)
        as (w1 & Hrun & Htrace1 & Hinit1 & Hfunc1 & Hcfg1).
      { intros Hb. by apply (Hok Hb). }
      rewrite (bind_Ok _ _ _ _ _ Hrun).
      destruct (pinMode_gpio_valid build pin INPUT_ANALOG w1 Hmode)
        as (pinConf & w' & Hgpio & ? & ? & ? & ? & Htrace & ? & ? & Hdevs).
      exists pinConf. eexists. exists w'. split_and!; try done.
      * rewrite Htrace, Htrace1. symmetry. apply app_assoc.
      * intros Hnone. destruct (adc_pin_not_none _ _ _ Hadc Hnone).
      * intros device' channel' [-> ->]%(adc_pin_unique _ _ _ _ _ Hadc).
        rewrite ?decide_True by done. by rewrite Hdevs.
    + (* any other mode: disable the channel *)
      destruct (pinMode_adc_other build pin dwMode device channel w Hadc Hother)
        as (w1 & Hrun & Htrace1 & Hhw1 & Hdevs1 & _).
      { intros Hb _. by apply (Hok Hb). }
      rewrite (bind_Ok _ _ _ _ _ Hrun).
      destruct (pinMode_gpio_valid build pin dwMode w1 Hmode)
        as (pinConf & w' & Hgpio & ? & ? & ? & ? & Htrace & ? & ? & Hdevs).
      exists pinConf. eexists. exists w'. split_and!; try done.
      * rewrite Htrace, Htrace1. symmetry. apply app_assoc.
      * intros Hnone. destruct (adc_pin_not_none _ _ _ Hadc Hnone).
      * intros device' channel' [-> ->]%(adc_pin_unique _ _ _ _ _ Hadc).
        rewrite ?decide_False by done. by rewrite Hdevs, Hdevs1.
Qed.

(** [pinMode] on a pin of the board and a mode it does not know. *)
Lemma pinMode_invalid_run build pin dwMode w :
  (pin < BOARD_NR_GPIO_PINS)%N →
  ¬ valid_pin_mode dwMode →
  (build = DebugAbort → ∀ device channel, adc_pin pin device channel →
     initialized (state (devices w device)) = true →
     0 ≤ channel < AdcCfg.channel_count (adc (devices w device))) →
  ∃ w1,
    pinMode build pin dwMode w =
      CORE_ASSERT_FAIL build
        "pinMode: invalid pin mode. Must be INPUT, INPUT_PULLUP, INPUT_ANALOG or OUTPUT" w1
    ∧ hw w1 = hw w
    ∧ devices w1 = devices w
    ∧ (build = Release → console w1 = console w)
    ∧ (no_adc_pin pin → w1 = w)
    ∧ (∀ device channel, adc_pin pin device channel →
         trace w1 = trace w ++
           (if initialized (state (devices w device)) then
              [Call_ADC_DelAdcChannel (AdcCfg.register_base (adc (devices w device)))
                 (Z.shiftl 1 channel mod 2 ^ 32)]
            else [])).
Proof.
  intros Hpin Hmode Hok. unfold pinMode.
  rewrite (bind_Ok _ _ _ _ _ (ASSERT_GPIO_PIN_VALID_passes build pin _ w Hpin)).
  rewrite decide_False by lia.
  assert (Hother : dwMode ≠ INPUT_ANALOG).
  { intros ->. apply Hmode, valid_pin_mode_cases. tauto. }
  destruct (adc_pin_or_not pin) as [Hnone | (device & channel & Hadc)].
  - rewrite (bind_Ok _ _ _ _ _ (pinMode_adc_none build pin dwMode w Hnone)).
    exists w. split_and!; try done.
    + by apply pinMode_gpio_invalid.
    + intros device channel Hadc. destruct (adc_pin_not_none _ _ _ Hadc Hnone).
  - destruct (pinMode_adc_other build pin dwMode device channel w Hadc Hother)
      as (w1 & Hrun & Htrace1 & Hhw1 & Hdevs1 & Hconsole1).
    { intros Hb. by apply (Hok Hb). }
    rewrite (bind_Ok _ _ _ _ _ Hrun).
    exists w1. split_and!; try done.
    + by apply pinMode_gpio_invalid.
    + intros Hnone. destruct (adc_pin_not_none _ _ _ Hadc Hnone).
    + by intros device' channel' [-> ->]%(adc_pin_unique _ _ _ _ _ Hadc).
Qed.

Lemma getPinMode_reads build pin w :
  (pin < BOARD_NR_GPIO_PINS)%N →
  ∀ pinConf dwMode,
    gpio_cfg (hw w) pin = pinConf →
    (pinConf = {| enPinMode := Pin_Mode_In; enPullUp := Disable |} ∧ dwMode = INPUT
     ∨ pinConf = {| enPinMode := Pin_Mode_In; enPullUp := Enable |} ∧ dwMode = INPUT_PULLUP
     ∨ pinConf = {| enPinMode := Pin_Mode_Ana; enPullUp := Disable |} ∧ dwMode = INPUT_ANALOG
     ∨ pinConf = {| enPinMode := Pin_Mode_Out; enPullUp := Disable |} ∧ dwMode = OUTPUT) →
    getPinMode build pin w = Ok dwMode (log_call (Call_GPIO_GetConfig pin) w).
Proof.
  intros Hpin pinConf dwMode Hcfg Hcases. unfold getPinMode.
  rewrite (bind_Ok _ _ _ _ _ (ASSERT_GPIO_PIN_VALID_passes build pin _ w Hpin)).
  rewrite decide_False by lia. run. cbn. rewrite Hcfg.
  destruct Hcases as [[-> ->] | [[-> ->] | [[-> ->] | [-> ->]]]]; reflexivity.
Qed.


(** *** Pin configuration *)

(** C5: on a pin of the board, each of the four modes is configured with
    [GPIO_SetFunc(Func_Gpio)] and [GPIO_Init] with its own pin mode and
    pull-up; on a pin with an ADC channel, [INPUT_ANALOG] first initializes
    the converter and enables the channel, and the other three modes
    first disable it (a vendor call only if the converter has been
    initialized: no channel is enabled before that). *)
Theorem pinMode_configures build pin dwMode w :
  (pin < BOARD_NR_GPIO_PINS)%N →
  valid_pin_mode dwMode →
  (build = DebugAbort → adc_pin_well_formed pin w) →
  ∃ pinConf adc_calls w',
    pinMode build pin dwMode w = Ok tt w'
    ∧ (dwMode = INPUT → pinConf = {| enPinMode := Pin_Mode_In; enPullUp := Disable |})
    ∧ (dwMode = INPUT_PULLUP → pinConf = {| enPinMode := Pin_Mode_In; enPullUp := Enable |})
    ∧ (dwMode = INPUT_ANALOG → pinConf = {| enPinMode := Pin_Mode_Ana; enPullUp := Disable |})
    ∧ (dwMode = OUTPUT → pinConf = {| enPinMode := Pin_Mode_Out; enPullUp := Disable |})
    ∧ trace w' = trace w ++ adc_calls
                   ++ [Call_GPIO_SetFunc pin Func_Gpio Enable; Call_GPIO_Init pin pinConf]
    ∧ gpio_func (hw w') pin = (Func_Gpio, Enable)
    ∧ gpio_cfg (hw w') pin = pinConf
    ∧ (no_adc_pin pin → adc_calls = [] ∧ devices w' = devices w)
    ∧ (∀ device channel, adc_pin pin device channel →
         if decide (dwMode = INPUT_ANALOG) then
           adc_calls =
             (if initialized (state (devices w device)) then []
              else adc_adc_init_calls (devices w device)
                     ++ adc_dma_init_calls device (devices w device))
             ++ [Call_ADC_AddAdcChannel (AdcCfg.register_base (adc (devices w device)))
                   {| u32Channel := Z.shiftl 1 channel mod 2 ^ 32;
                      u8Sequence := AdcCfg.sequence (adc (devices w device));
                      pu8SampTime := ADC_SAMPLE_TIME_DEFAULT |}]
           ∧ initialized (state (devices w' device)) = true
         else
           adc_calls =
             (if initialized (state (devices w device)) then
                [Call_ADC_DelAdcChannel (AdcCfg.register_base (adc (devices w device)))
                   (Z.shiftl 1 channel mod 2 ^ 32)]
              else [])
           ∧ devices w' = devices w).
Proof. apply pinMode_run. Qed.

(** C9: on a pin with an ADC channel, a mode outside the four leaves the
    GPIO function and configuration of the pin (the whole of the
    peripheral state, in fact) as they were and makes no GPIO call, but
    an initialized converter still has the channel of the pin disabled. *)
Theorem pinMode_invalid_mode_disables_channel build pin dwMode device channel w :
  (pin < BOARD_NR_GPIO_PINS)%N →
  adc_pin pin device channel →
  ¬ valid_pin_mode dwMode →
  (build = DebugAbort →
     initialized (state (devices w device)) = true →
     0 ≤ channel < AdcCfg.channel_count (adc (devices w device))) →
  let o := pinMode build pin dwMode w in
  hw (final_world o) = hw w
  ∧ devices (final_world o) = devices w
  ∧ trace (final_world o) = trace w ++
      (if initialized (state (devices w device)) then
         [Call_ADC_DelAdcChannel (AdcCfg.register_base (adc (devices w device)))
            (Z.shiftl 1 channel mod 2 ^ 32)]
       else [])
  ∧ match build with
    | DebugAbort =>
        ∃ w', o = Halt (AssertFailed
          "pinMode: invalid pin mode. Must be INPUT, INPUT_PULLUP, INPUT_ANALOG or OUTPUT") w'
    | DebugLog | Release => ∃ w', o = Ok tt w'
    end.
Proof.
  intros Hpin Hadc Hmode Hok o.
  destruct (pinMode_invalid_run build pin dwMode w Hpin Hmode)
    as (w1 & Hrun & Hhw & Hdevs & _ & _ & Htrace).
  { intros Hb device' channel' [-> ->]%(adc_pin_unique _ _ _ _ _ Hadc). by apply Hok. }
  specialize (Htrace device channel Hadc).
  subst o. rewrite Hrun. destruct build; cbn; eauto 10.
Qed.

(** C10, as amended: on a pin of the board, [getPinMode] after [pinMode]
    gives back each of the four modes; on a pin number beyond the board
    [getPinMode] gives [INPUT_FLOATING] in a release build and in a debug
    build that logs, and halts on the failed pin assertion in a debug
    build that aborts. *)
Theorem pinMode_getPinMode_roundtrip build pin w :
  ((pin < BOARD_NR_GPIO_PINS)%N →
     ∀ dwMode,
       valid_pin_mode dwMode →
       (build = DebugAbort → adc_pin_well_formed pin w) →
       ∃ w',
         pinMode build pin dwMode w = Ok tt w'
         ∧ getPinMode build pin w' = Ok dwMode (log_call (Call_GPIO_GetConfig pin) w'))
  ∧ ((BOARD_NR_GPIO_PINS ≤ pin)%N →
     match build with
     | Release => getPinMode build pin w = Ok INPUT_FLOATING w
     | DebugLog =>
         getPinMode build pin w =
           Ok INPUT_FLOATING
             (log_console (assert_line (GPIO_PIN_INVALID_MESSAGE "getPinMode")) w)
     | DebugAbort =>
         getPinMode build pin w =
           Halt (AssertFailed (GPIO_PIN_INVALID_MESSAGE "getPinMode")) w
     end).
Proof.
  split.
  - intros Hpin dwMode Hmode Hok.
    destruct (pinMode_run build pin dwMode w Hpin Hmode Hok)
      as (pinConf & adc_calls & w' & Hrun & Hin & Hup & Hana & Hout & _ & _ & Hcfg & _).
    exists w'. split; [done|].
    apply (getPinMode_reads build pin w' Hpin pinConf dwMode Hcfg).
    apply valid_pin_mode_cases in Hmode.
    destruct Hmode as [Hm | [Hm | [Hm | Hm]]]; auto 10.
  - intros Hpin. unfold getPinMode, mbind, M_bind.
    rewrite ASSERT_GPIO_PIN_VALID_fails by done.
    destruct build; by rewrite ?decide_True by done.
Qed.

(** C6, as amended: on a pin of the board [digitalRead] gives [HIGH] or
    [LOW] as the input bit is set or clear, and [digitalWrite] calls
    [GPIO_SetBits] for [HIGH] and [GPIO_ResetBits] for any other value; on
    a pin number beyond the board [digitalRead] touches no peripheral in
    any build, gives [LOW] in a release build and in a debug build that
    logs, and halts on the failed pin assertion in a debug build that
    aborts. *)
Theorem digitalRead_digitalWrite build pin w :
  ((pin < BOARD_NR_GPIO_PINS)%N →
     digitalRead build pin w =
       Ok (if gpio_in (hw w) pin then HIGH else LOW) (log_call (Call_GPIO_GetBit pin) w)
     ∧ digitalWrite build pin HIGH w =
         Ok tt (set_hw (set_gpio_out pin true) (log_call (Call_GPIO_SetBits pin) w))
     ∧ ∀ dwVal, dwVal ≠ HIGH →
         digitalWrite build pin dwVal w =
           Ok tt (set_hw (set_gpio_out pin false) (log_call (Call_GPIO_ResetBits pin) w)))
  ∧ ((BOARD_NR_GPIO_PINS ≤ pin)%N →
     let o := digitalRead build pin w in
     hw (final_world o) = hw w
     ∧ trace (final_world o) = trace w
     ∧ match build with
       | Release => o = Ok LOW w
       | DebugLog =>
           o = Ok LOW (log_console (assert_line (GPIO_PIN_INVALID_MESSAGE "digitalRead")) w)
       | DebugAbort => o = Halt (AssertFailed (GPIO_PIN_INVALID_MESSAGE "digitalRead")) w
       end).
Proof.
  split.
  - intros Hpin. unfold digitalRead, digitalWrite.
    rewrite !(bind_Ok _ _ _ _ _ (ASSERT_GPIO_PIN_VALID_passes build pin _ w Hpin)).
    rewrite !decide_False by lia. split_and!.
    + reflexivity.
    + by rewrite decide_True.
    + intros dwVal Hlow.
      rewrite (bind_Ok _ _ _ _ _ (ASSERT_GPIO_PIN_VALID_passes build pin _ w Hpin)).
      rewrite decide_False by lia. by rewrite decide_False.
  - intros Hpin o. subst o. unfold digitalRead, mbind, M_bind.
    rewrite ASSERT_GPIO_PIN_VALID_fails by done.
    destruct build; by rewrite ?decide_True by done.
Qed.

(** *** Failure handling *)



End Properties.

(** * The statements at work on the example board *)

Module Examples.
Import ExampleBoard.
#[local] Existing Instance board.

Lemma pin0_well_formed : adc_pin_well_formed 0 world0.
Proof.
intros device channel (Hdevice & Hchannel & _).
cbn in Hdevice, Hchannel. injection Hdevice as <-. subst channel.
vm_compute. repeat split; easy.
Defined.

Lemma pin0_on_board : (0 < BOARD_NR_GPIO_PINS)%N.
Proof. reflexivity. Defined.

Lemma pin0_is_adc_pin : adc_pin 0 ADC1_device 0.
Proof. split_and!; [reflexivity | reflexivity | discriminate]. Defined.

Lemma mode_99_invalid : ¬ valid_pin_mode 99.
Proof.
unfold valid_pin_mode. rewrite !elem_of_cons, elem_of_nil. cbn.
intros [?|[?|[?|[?|[]]]]]; discriminate.
Defined.

Lemma waits_two_turns :
  initialized (state (devices world1 ADC1_device)) = true
  ∧ adc_await_conversion_completed DebugAbort dma_done_at_second_yield 5 ADC1_device world1 =
      Ok tt (log_call (poll_call (devices world1 ADC1_device))
               (waiting dma_done_at_second_yield (devices world1 ADC1_device) 2 world1))
  ∧ adc_await_conversion_completed DebugAbort dma_stalled 3 ADC1_device world1 =
      Halt OutOfFuel (waiting dma_stalled (devices world1 ADC1_device) 3 world1).
Proof.
  split; [reflexivity|].
  destruct (adc_await_conversion_completed_waits
              DebugAbort dma_done_at_second_yield ADC1_device world1 eq_refl)
    as (_ & Hcompletes & _).
  destruct (adc_await_conversion_completed_waits
              DebugAbort dma_stalled ADC1_device world1 eq_refl)
    as (_ & _ & Hstarves).
  split.
  - apply (Hcompletes 2%nat 5%nat); [reflexivity | | lia].
    intros [|[|k]] Hk; [reflexivity | reflexivity | lia].
  - apply (Hstarves 3%nat).
    intros [|[|[|k]]] Hk; [reflexivity | reflexivity | reflexivity | lia].
Defined.

Lemma poll_finds_flag_unset :
initialized (state (devices world1 ADC1_device)) = true
∧ ∃ w', adc_is_conversion_completed DebugAbort ADC1_device world1 = Ok false w'
        ∧ hw w' = hw world1 ∧ devices w' = devices world1.
Proof.
split; [reflexivity|].
destruct (adc_is_conversion_completed_polls DebugAbort ADC1_device world1 eq_refl)
  as (completed & w' & Hrun & Hflag & Hhw & Hdevs & _).
exists w'. split_and!; [|done..].
destruct completed; [|done].
destruct Hflag as [Hset _]. specialize (Hset eq_refl).
vm_compute in Hset. discriminate.
Defined.

Lemma reads_channel_3 :
initialized (state (devices world1 ADC1_device)) = true
∧ 0 ≤ 3 < AdcCfg.channel_count (adc (devices world1 ADC1_device))
∧ conversion_results (state (devices world1 ADC1_device)) !! Z.to_nat 3 = Some 103
∧ ∃ w', adc_conversion_read_result DebugAbort ADC1_device 3 world1 = Ok 103 w'
        ∧ block_complete_flag (devices world1 ADC1_device) (hw w') = Reset
        ∧ devices w' = devices world1.
Proof.
split_and!; [reflexivity | by vm_compute | by vm_compute | reflexivity |].
destruct (adc_conversion_read_result_reads DebugAbort ADC1_device 3 103 world1)
  as (w' & Hrun & Hflag & _ & _ & Hdevs & _); [reflexivity | by vm_compute | reflexivity |].
by exists w'.
Defined.

Lemma enables_channel_3 :
initialized (state (devices world1 ADC1_device)) = true
∧ 0 ≤ 3 < AdcCfg.channel_count (adc (devices world1 ADC1_device))
∧ 0 < 50
∧ ∃ w', adc_enable_channel DebugAbort ADC1_device 3 50 world1 = Ok tt w'
        ∧ trace w' =
            [Call_ADC_AddAdcChannel 0x40040000
               {| u32Channel := 8; u8Sequence := 0; pu8SampTime := 50 |}].
Proof.
split_and!; [reflexivity | by vm_compute | by vm_compute | lia |].
destruct (adc_enable_channel_adds_channel DebugAbort ADC1_device 3 50 world1)
  as (w' & Hrun & Htrace & _); [reflexivity | by vm_compute | lia |].
by exists w'.
Defined.

Lemma pin0_analog_input :
(0 < BOARD_NR_GPIO_PINS)%N
∧ valid_pin_mode INPUT_ANALOG
∧ adc_pin_well_formed 0 world0
∧ ∃ w', pinMode DebugAbort 0 INPUT_ANALOG world0 = Ok tt w'
        ∧ gpio_cfg (hw w') 0%N = {| enPinMode := Pin_Mode_Ana; enPullUp := Disable |}
        ∧ gpio_func (hw w') 0%N = (Func_Gpio, Enable)
        ∧ initialized (state (devices w' ADC1_device)) = true.
Proof.
assert (Hmode : valid_pin_mode INPUT_ANALOG).
{ unfold valid_pin_mode. rewrite !elem_of_cons. auto. }
split_and!; [reflexivity | exact Hmode | exact pin0_well_formed |].
destruct (pinMode_configures DebugAbort 0 INPUT_ANALOG world0)
  as (pinConf & adc_calls & w' & Hrun & _ & _ & Hana & _ & _ & Hfunc & Hcfg & _ & Hadc);
  [reflexivity | exact Hmode | intros _; exact pin0_well_formed |].
exists w'. rewrite Hcfg, (Hana eq_refl). split_and!; [done..|].
specialize (Hadc ADC1_device 0 pin0_is_adc_pin). rewrite decide_True in Hadc by done.
apply Hadc.
Defined.

Lemma pin0_invalid_mode :
(0 < BOARD_NR_GPIO_PINS)%N
∧ adc_pin 0 ADC1_device 0
∧ ¬ valid_pin_mode 99
∧ hw (final_world (pinMode DebugAbort 0 99 world1)) = hw world1
∧ trace (final_world (pinMode DebugAbort 0 99 world1)) =
    [Call_ADC_DelAdcChannel 0x40040000 1].
Proof.
split_and!; [reflexivity | exact pin0_is_adc_pin | exact mode_99_invalid | |].
all: destruct (pinMode_invalid_mode_disables_channel
                 DebugAbort 0 99 ADC1_device 0 world1 pin0_on_board
                 pin0_is_adc_pin mode_99_invalid)
       as (Hhw & _ & Htrace & _); [intros _ _; by vm_compute | done].
Defined.

Lemma pin0_roundtrip :
∃ w', pinMode DebugAbort 0 INPUT_PULLUP world0 = Ok tt w'
      ∧ getPinMode DebugAbort 0 w' = Ok INPUT_PULLUP (log_call (Call_GPIO_GetConfig 0) w').
Proof.
destruct (pinMode_getPinMode_roundtrip DebugAbort 0 world0) as [Hboard _].
apply Hboard; [reflexivity | | intros _; exact pin0_well_formed].
unfold valid_pin_mode. rewrite !elem_of_cons. auto.
Defined.

Lemma pin7_reads_high :
digitalRead Release 7 world0 = Ok HIGH (log_call (Call_GPIO_GetBit 7) world0)
∧ digitalRead Release 83 world0 = Ok LOW world0.
Proof.
destruct (digitalRead_digitalWrite Release 7 world0) as [Hboard _].
destruct (digitalRead_digitalWrite Release 83 world0) as [_ Hbeyond].
split.
- apply Hboard. reflexivity.
- apply Hbeyond. discriminate.
Defined.



(** C6: the claim fails in a debug build that aborts.  Beyond the board
    [digitalRead] does not return [LOW] there, nor anything else: it halts
    on the pin assertion. *)
Lemma digitalRead_halts_beyond_the_board :
  (BOARD_NR_GPIO_PINS ≤ 83)%N
  ∧ digitalRead DebugAbort 83 world0 =
      Halt (AssertFailed "invalid GPIO pin (calling digitalRead)") world0
  ∧ ∀ v w', digitalRead DebugAbort 83 world0 ≠ Ok v w'.
Proof. split_and!; [discriminate | reflexivity | discriminate]. Qed.

(** C10: the claim fails in a debug build that aborts.  Beyond the board
    [getPinMode] does not return [INPUT_FLOATING] there, nor anything else:
    it halts on the pin assertion. *)
Lemma getPinMode_halts_beyond_the_board :
  (BOARD_NR_GPIO_PINS ≤ 83)%N
  ∧ getPinMode DebugAbort 83 world0 =
      Halt (AssertFailed "invalid GPIO pin (calling getPinMode)") world0
  ∧ ∀ v w', getPinMode DebugAbort 83 world0 ≠ Ok v w'.
Proof. split_and!; [discriminate | reflexivity | discriminate]. Qed.

End Examples.

(** * Invariants and compositions *)

Section Invariants.
Context `{Board}.
Implicit Types (build : build_t) (device : N) (w : world).

(** *** Relations between worlds *)

#[local] Instance device_grows_preorder : PreOrder device_grows.
Proof.
  split.
  - intros d. by repeat split.
  - intros d1 d2 d3 (? & ? & ? & ?) (? & ? & ? & ?).
    repeat split; try congruence. auto.
Qed.

#[local] Instance devices_grow_preorder : PreOrder devices_grow.
Proof.
  split.
  - intros w p. reflexivity.
  - intros w1 w2 w3 H12 H23 p. by transitivity (devices w2 p).
Qed.

#[local] Instance same_state_preorder : PreOrder same_state.
Proof.
  split.
  - by intros w.
  - intros w1 w2 w3 [??] [??]. split; congruence.
Qed.

#[local] Instance gpio_untouched_preorder : PreOrder gpio_untouched.
Proof.
  split.
  - by intros w.
  - intros w1 w2 w3 (? & ? & ? & ?) (? & ? & ? & ?). repeat split; congruence.
Qed.

#[local] Instance gpio_untouched_but_preorder pin : PreOrder (gpio_untouched_but pin).
Proof.
  split.
  - by intros w.
  - intros w1 w2 w3 (? & ? & H12) (? & ? & H23). split_and!; try congruence.
    intros q Hq. destruct (H12 q Hq), (H23 q Hq). split; congruence.
Qed.

#[local] Instance adc_untouched_preorder : PreOrder adc_untouched.
Proof.
  split.
  - by intros w.
  - intros w1 w2 w3 [??] [??]. split; congruence.
Qed.

Lemma same_state_devices_grow w w' : same_state w w' → devices_grow w w'.
Proof. intros [_ Hdevs] p. rewrite Hdevs. reflexivity. Qed.

Lemma same_state_gpio_untouched w w' : same_state w w' → gpio_untouched w w'.
Proof. intros [Hhw _]. unfold gpio_untouched. by rewrite Hhw. Qed.

Lemma same_state_adc_untouched w w' : same_state w w' → adc_untouched w w'.
Proof. intros [Hhw Hdevs]. unfold adc_untouched. by rewrite Hhw, Hdevs. Qed.

Lemma gpio_untouched_any_pin pin w w' :
  gpio_untouched w w' → gpio_untouched_but pin w w'.
Proof. intros (Hfunc & Hcfg & ? & ?). split_and!; [done..|]. intros q _. by rewrite Hfunc, Hcfg. Qed.

#[local] Instance calls_added_preorder P : PreOrder (calls_added P).
Proof.
  split.
  - intros w. exists []. split; [by rewrite app_nil_r | constructor].
  - intros w1 w2 w3 (c12 & H12 & P12) (c23 & H23 & P23). exists (c12 ++ c23). split.
    + by rewrite H23, H12, app_assoc.
    + by apply Forall_app.
Qed.

Lemma calls_added_weaken (P Q : vendor_call → Prop) w w' :
  (∀ c, P c → Q c) → calls_added P w w' → calls_added Q w w'.
Proof. intros HPQ (calls & Htrace & HP). exists calls. split; [done|]. by eapply Forall_impl. Qed.

(** *** Keeping a relation through the monad *)

Lemma preserves_ret {A} (R : world → world → Prop) `{!Reflexive R} (a : A) :
  preserves R (mret a).
Proof. intros w. cbn. reflexivity. Qed.

Lemma preserves_bind {A B} (R : world → world → Prop) `{!Transitive R}
    (m : M A) (f : A → M B) :
  preserves R m → (∀ a, preserves R (f a)) → preserves R (m ≫= f).
Proof.
  intros Hm Hf w. specialize (Hm w). unfold mbind, M_bind.
  destruct (m w) as [a w1 | h w1]; [|done].
  transitivity w1; [done | apply Hf].
Qed.

Lemma preserves_weaken {A} (R R' : world → world → Prop) (m : M A) :
  (∀ w w', R w w' → R' w w') → preserves R m → preserves R' m.
Proof. intros Hsub Hm w. apply Hsub, Hm. Qed.

(** *** Calls that change nothing but the logs *)

Lemma adc_enable_channel_same_state build device (adc_channel sample_time : Z) :
  preserves same_state (adc_enable_channel build device adc_channel sample_time).
Proof. intros w. run. destruct build; split_tests; done. Qed.

Lemma adc_disable_channel_same_state build device (adc_channel : Z) :
  preserves same_state (adc_disable_channel build device adc_channel).
Proof. intros w. run. destruct build; split_tests; done. Qed.

Lemma adc_is_conversion_completed_same_state build device :
  preserves same_state (adc_is_conversion_completed build device).
Proof. intros w. run. destruct build; split_tests; done. Qed.

Lemma getPinMode_same_state build pin :
  preserves same_state (getPinMode build pin).
Proof.
  intros w. run. destruct build; split_tests; try done.
  all: destruct (enPinMode _); split_tests; done.
Qed.

Lemma digitalRead_same_state build pin :
  preserves same_state (digitalRead build pin).
Proof. intros w. run. destruct build; split_tests; done. Qed.

Lemma pinMode_switch_same_state build dwMode pinConf :
  preserves same_state (pinMode_switch build dwMode pinConf).
Proof. intros w. run. destruct build; split_tests; done. Qed.

Lemma ASSERT_GPIO_PIN_VALID_same_state build pin fn_name :
  preserves same_state (ASSERT_GPIO_PIN_VALID build pin fn_name).
Proof. intros w. run. destruct build; split_tests; done. Qed.

(** *** The device objects *)

Lemma adc_device_init_devices_grow build device :
  preserves devices_grow (adc_device_init build device).
Proof.
  intros w. run. destruct (initialized (state (devices w device))) eqn:Hinit.
  - reflexivity.
  - destruct build; cbn; intros p.
    all: unfold alter, fn_alter; cbn; case_decide; [subst p | reflexivity].
    all: by repeat split.
Qed.

Lemma adc_start_conversion_devices_grow build device :
  preserves devices_grow (adc_start_conversion build device).
Proof. intros w. run. destruct build; split_tests; intros p; cbn; reflexivity. Qed.

Lemma adc_conversion_read_result_devices_grow build device (adc_channel : Z) :
  preserves devices_grow (adc_conversion_read_result build device adc_channel).
Proof. intros w. run. destruct build; split_tests; intros p; cbn; reflexivity. Qed.

Lemma yield_devices_grow environment : preserves devices_grow (yield environment).
Proof. intros w p. cbn. reflexivity. Qed.

Lemma adc_await_loop_devices_grow build environment device fuel :
  preserves devices_grow (adc_await_loop build environment fuel device).
Proof.
  induction fuel as [|fuel IH]; [intros w p; cbn; reflexivity|].
  cbn [adc_await_loop]. apply preserves_bind; [apply _ | |].
  - eapply preserves_weaken; [apply same_state_devices_grow|].
    apply adc_is_conversion_completed_same_state.
  - intros [|]; cbn [negb]; [apply preserves_ret; apply _|].
    apply preserves_bind; [apply _ | apply yield_devices_grow | done].
Qed.

Lemma adc_await_conversion_completed_devices_grow build environment device fuel :
  preserves devices_grow (adc_await_conversion_completed build environment fuel device).
Proof.
  unfold adc_await_conversion_completed. apply preserves_bind; [apply _ | |].
  - intros w. run. destruct build; split_tests; intros p; cbn; reflexivity.
  - intros _. apply adc_await_loop_devices_grow.
Qed.

Lemma pinMode_adc_devices_grow build pin dwMode :
  preserves devices_grow (pinMode_adc build pin dwMode).
Proof.
  unfold pinMode_adc.
  destruct (adc_device (PIN_MAP pin)) as [device|]; [|apply preserves_ret; apply _].
  case_decide; [|apply preserves_ret; apply _].
  case_decide.
  - apply preserves_bind; [apply _ | apply adc_device_init_devices_grow |].
    intros _. eapply preserves_weaken; [apply same_state_devices_grow|].
    apply adc_enable_channel_same_state.
  - eapply preserves_weaken; [apply same_state_devices_grow|].
    apply adc_disable_channel_same_state.
Qed.

Lemma pinMode_gpio_devices_grow build pin dwMode :
  preserves devices_grow (pinMode_gpio build pin dwMode).
Proof.
  unfold pinMode_gpio. apply preserves_bind; [apply _ | |].
  - eapply preserves_weaken; [apply same_state_devices_grow|].
    apply pinMode_switch_same_state.
  - intros [pinConf|]; [|apply preserves_ret; apply _]. intros w p. cbn. reflexivity.
Qed.

Lemma pinMode_devices_grow build pin dwMode :
  preserves devices_grow (pinMode build pin dwMode).
Proof.
  unfold pinMode. apply preserves_bind; [apply _ | |].
  - eapply preserves_weaken; [apply same_state_devices_grow|].
    apply ASSERT_GPIO_PIN_VALID_same_state.
  - intros _. case_decide; [apply preserves_ret; apply _|].
    apply preserves_bind; [apply _ | apply pinMode_adc_devices_grow |].
    intros _. apply pinMode_gpio_devices_grow.
Qed.

Lemma digitalWrite_adc_untouched build pin dwVal :
  preserves adc_untouched (digitalWrite build pin dwVal).
Proof. intros w. run. destruct build; split_tests; done. Qed.

(** *** The GPIO side *)

Lemma adc_device_init_gpio_untouched build device :
  preserves gpio_untouched (adc_device_init build device).
Proof. intros w. run. destruct build; split_tests; done. Qed.

Lemma adc_start_conversion_gpio_untouched build device :
  preserves gpio_untouched (adc_start_conversion build device).
Proof. intros w. run. destruct build; split_tests; done. Qed.

Lemma adc_conversion_read_result_gpio_untouched build device (adc_channel : Z) :
  preserves gpio_untouched (adc_conversion_read_result build device adc_channel).
Proof. intros w. run. destruct build; split_tests; done. Qed.

Lemma pinMode_adc_gpio_untouched build pin dwMode :
  preserves gpio_untouched (pinMode_adc build pin dwMode).
Proof.
  unfold pinMode_adc.
  destruct (adc_device (PIN_MAP pin)) as [device|]; [|apply preserves_ret; apply _].
  case_decide; [|apply preserves_ret; apply _].
  case_decide.
  - apply preserves_bind; [apply _ | apply adc_device_init_gpio_untouched |].
    intros _. eapply preserves_weaken; [apply same_state_gpio_untouched|].
    apply adc_enable_channel_same_state.
  - eapply preserves_weaken; [apply same_state_gpio_untouched|].
    apply adc_disable_channel_same_state.
Qed.

Lemma pinMode_gpio_untouched_but build pin dwMode :
  preserves (gpio_untouched_but pin) (pinMode build pin dwMode).
Proof.
  unfold pinMode. apply preserves_bind; [apply _ | |].
  - eapply preserves_weaken;
      [intros w w' Hs; apply gpio_untouched_any_pin, same_state_gpio_untouched, Hs|].
    apply ASSERT_GPIO_PIN_VALID_same_state.
  - intros _. case_decide; [apply preserves_ret; apply _|].
    apply preserves_bind; [apply _ | |].
    + eapply preserves_weaken; [apply gpio_untouched_any_pin|].
      apply pinMode_adc_gpio_untouched.
    + intros _. unfold pinMode_gpio. apply preserves_bind; [apply _ | |].
      * eapply preserves_weaken;
          [intros w w' Hs; apply gpio_untouched_any_pin, same_state_gpio_untouched, Hs|].
        apply pinMode_switch_same_state.
      * intros [pinConf|]; [|apply preserves_ret; apply _].
        intros w. run. cbn. split_and!; [done..|].
        intros q Hq. cbn. by rewrite !fn_lookup_insert_ne.
Qed.

(** *** The log of calls *)

Lemma adc_device_init_calls_added build device :
  preserves (calls_added (λ c, gpio_call_pin c = None)) (adc_device_init build device).
Proof. intros w. run. destruct build; split_tests; check_calls. Qed.

Lemma adc_enable_channel_calls_added build device (adc_channel sample_time : Z) :
  preserves (calls_added (λ c, gpio_call_pin c = None))
    (adc_enable_channel build device adc_channel sample_time).
Proof. intros w. run. destruct build; split_tests; check_calls. Qed.

Lemma adc_disable_channel_calls_added build device (adc_channel : Z) :
  preserves (calls_added (λ c, gpio_call_pin c = None))
    (adc_disable_channel build device adc_channel).
Proof. intros w. run. destruct build; split_tests; check_calls. Qed.

Lemma adc_start_conversion_calls_added build device :
  preserves (calls_added (λ c, gpio_call_pin c = None)) (adc_start_conversion build device).
Proof. intros w. run. destruct build; split_tests; check_calls. Qed.

Lemma adc_is_conversion_completed_calls_added build device :
  preserves (calls_added (λ c, gpio_call_pin c = None))
    (adc_is_conversion_completed build device).
Proof. intros w. run. destruct build; split_tests; check_calls. Qed.

Lemma adc_conversion_read_result_calls_added build device (adc_channel : Z) :
  preserves (calls_added (λ c, gpio_call_pin c = None))
    (adc_conversion_read_result build device adc_channel).
Proof. intros w. run. destruct build; split_tests; check_calls. Qed.

Lemma adc_await_conversion_completed_calls_added build environment device fuel :
  preserves (calls_added (λ c, gpio_call_pin c = None))
    (adc_await_conversion_completed build environment fuel device).
Proof.
  unfold adc_await_conversion_completed. apply preserves_bind; [apply _ | |].
  { intros w. run. destruct build; split_tests; check_calls. }
  intros _. induction fuel as [|fuel IH]; [intros w; check_calls|].
  cbn [adc_await_loop]. apply preserves_bind; [apply _ | |].
  - apply adc_is_conversion_completed_calls_added.
  - intros [|]; cbn [negb]; [apply preserves_ret; apply _|].
    apply preserves_bind; [apply _ | | done]. intros w. check_calls.
Qed.

Lemma pinMode_calls_added build pin dwMode :
  preserves (calls_added (λ c, ∀ q, gpio_call_pin c = Some q → q = pin))
    (pinMode build pin dwMode).
Proof.
  assert (Hadc : ∀ c, gpio_call_pin c = None → ∀ q, gpio_call_pin c = Some q → q = pin)
    by congruence.
  unfold pinMode. apply preserves_bind; [apply _ | |].
  { intros w. run. destruct build; split_tests; check_calls. }
  intros _. case_decide; [apply preserves_ret; apply _|].
  apply preserves_bind; [apply _ | |].
  - unfold pinMode_adc.
    destruct (adc_device (PIN_MAP pin)) as [device|]; [|apply preserves_ret; apply _].
    case_decide; [|apply preserves_ret; apply _].
    eapply preserves_weaken; [intros w w'; apply (calls_added_weaken _ _ _ _ Hadc)|].
    case_decide.
    + apply preserves_bind; [apply _ | apply adc_device_init_calls_added |].
      intros _. apply adc_enable_channel_calls_added.
    + apply adc_disable_channel_calls_added.
  - intros _ w. unfold pinMode_gpio. run. destruct build; split_tests; check_calls.
    all: by intros q [= <-].
Qed.

Lemma digital_calls_added build pin (dwVal : Z) :
  preserves (calls_added (λ c, gpio_call_pin c = Some pin)) (digitalWrite build pin dwVal)
  ∧ preserves (calls_added (λ c, gpio_call_pin c = Some pin)) (digitalRead build pin)
  ∧ preserves (calls_added (λ c, gpio_call_pin c = Some pin)) (getPinMode build pin).
Proof.
  split_and!; intros w; run; destruct build; split_tests.
  all: try (destruct (enPinMode _); split_tests).
  all: check_calls.
Qed.

(** *** Conversions, from start to result *)

Lemma initialized_check_passes build device fn_name w :
  initialized (state (devices w device)) = true →
  ASSERT_INITIALIZED build device fn_name w = Ok tt w.
Proof. intros Hinit. run. by rewrite Hinit. Qed.

Lemma poll_after_clear build device w :
  initialized (state (devices w device)) = true →
  block_complete_flag (devices w device) (hw w) = Reset →
  adc_is_conversion_completed build device w =
    Ok false (log_call (poll_call (devices w device)) w).
Proof.
  intros Hinit Hflag. run. rewrite Hinit. cbn.
  unfold block_complete_flag in Hflag. by rewrite Hflag.
Qed.

Lemma adc_start_conversion_run build device w :
  initialized (state (devices w device)) = true →
  ∃ w',
    adc_start_conversion build device w = Ok tt w'
    ∧ trace w' = trace w ++
        [clear_call (devices w device);
         Call_ADC_StartConvert (AdcCfg.register_base (adc (devices w device)))]
    ∧ block_complete_flag (devices w device) (hw w') = Reset
    ∧ devices w' = devices w
    ∧ console w' = console w.
Proof.
  intros Hinit. eexists. split; [run; rewrite Hinit; reflexivity|].
  split_and!; try done.
  - cbn. by rewrite <- app_assoc.
  - unfold block_complete_flag. cbn. apply fn_lookup_insert.
Qed.

(** X1: on an initialized device [adc_start_conversion] clears the
    block-transfer-complete flag, then starts the converter, in this order
    and with no other call; a poll made right after it says "not
    completed", whatever an earlier conversion left in the flag. *)
Theorem adc_start_conversion_starts_afresh build device w :
  initialized (state (devices w device)) = true →
  ∃ w',
    adc_start_conversion build device w = Ok tt w'
    ∧ trace w' = trace w ++
        [clear_call (devices w device);
         Call_ADC_StartConvert (AdcCfg.register_base (adc (devices w device)))]
    ∧ block_complete_flag (devices w device) (hw w') = Reset
    ∧ devices w' = devices w
    ∧ console w' = console w
    ∧ ∃ w'', adc_is_conversion_completed build device w' = Ok false w''.
Proof.
  intros Hinit.
  destruct (adc_start_conversion_run build device w Hinit)
    as (w' & Hstart & Htrace & Hflag & Hdevs & Hconsole).
  exists w'. split_and!; try done.
  eexists. apply poll_after_clear; by rewrite Hdevs.
Qed.

(** X2: reading a result consumes the completion: after
    [adc_conversion_read_result] a poll says "not completed" until the next
    conversion completes, while a second read gives the same value again,
    since the buffer is only read. *)
Theorem adc_conversion_read_result_consumes build device (adc_channel v : Z) w :
  initialized (state (devices w device)) = true →
  0 ≤ adc_channel < AdcCfg.channel_count (adc (devices w device)) →
  conversion_results (state (devices w device)) !! Z.to_nat adc_channel = Some v →
  ∃ w',
    adc_conversion_read_result build device adc_channel w = Ok v w'
    ∧ (∃ w'', adc_is_conversion_completed build device w' = Ok false w'')
    ∧ (∃ w'', adc_conversion_read_result build device adc_channel w' = Ok v w'').
Proof.
  intros Hinit Hch Hv.
  assert (Hread : ∀ w0, devices w0 = devices w →
    adc_conversion_read_result build device adc_channel w0 =
      Ok v (set_hw (set_dma_irq_flag (DmaCfg.register_base (dma (devices w device)),
                      DmaCfg.channel (dma (devices w device)), BlkTrnCpltIrq) Reset)
              (log_call (clear_call (devices w device)) w0))).
  { intros w0 Hdevs. run.
    repeat (cbn; rewrite ?Hdevs, ?Hinit, ?(channel_id_check _ _ Hch), ?Hv).
    reflexivity. }
  eexists. split; [by apply Hread|]. split.
  - eexists. apply poll_after_clear; [done|].
    unfold block_complete_flag. cbn. apply fn_lookup_insert.
  - eexists. by apply Hread.
Qed.

(** The flag of a device whose DMA channel the peripherals leave alone
    stays as it is through any number of turns of the waiting loop. *)
Lemma waiting_flag_left_alone environment d n w :
  flag_left_alone environment d →
  block_complete_flag d (hw (waiting environment d n w)) = block_complete_flag d (hw w).
Proof.
  intros Halone. induction n as [|n IH]; [done|].
  unfold waiting in *. cbn. by rewrite Halone.
Qed.

(** X11: a completion flag left over from an earlier conversion does not
    end the wait of a new one.  If the peripherals never set the flag after
    [adc_start_conversion], then [adc_await_conversion_completed] polls and
    yields for as long as it is let run, even when the flag was set
    before the start. *)
Theorem adc_await_ignores_stale_completion build environment device fuel w :
  initialized (state (devices w device)) = true →
  flag_left_alone environment (devices w device) →
  ∃ w',
    (adc_start_conversion build device ≫=
       λ _, adc_await_conversion_completed build environment fuel device) w =
      Halt OutOfFuel w'
    ∧ trace w' = trace w ++
        [clear_call (devices w device);
         Call_ADC_StartConvert (AdcCfg.register_base (adc (devices w device)))]
        ++ concat (replicate fuel [poll_call (devices w device); Call_yield]).
Proof.
  intros Hinit Halone.
  destruct (adc_start_conversion_run build device w Hinit)
    as (w1 & Hstart & Htrace & Hflag & Hdevs & _).
  rewrite (bind_Ok _ _ _ _ _ Hstart).
  unfold adc_await_conversion_completed.
  rewrite (bind_Ok _ _ _ _ _ (initialized_check_passes build device _ w1
             ltac:(by rewrite Hdevs))).
  rewrite adc_await_loop_starves.
  - eexists. split; [done|]. rewrite waiting_trace, Hdevs, Htrace.
    by rewrite <- !app_assoc.
  - by rewrite Hdevs.
  - intros k _. rewrite Hdevs, waiting_flag_left_alone by done. done.
Qed.

(** *** Channels *)

(** X3: what [adc_enable_channel] adds, [adc_disable_channel] removes: on
    an initialized device and a channel of the device the two calls name
    the same converter and the same channel mask, and leave the device
    objects and the peripheral state of the model as they were. *)
Theorem adc_enable_then_disable build device (adc_channel sample_time : Z) w :
  initialized (state (devices w device)) = true →
  0 ≤ adc_channel < AdcCfg.channel_count (adc (devices w device)) →
  0 < sample_time →
  ∃ w1 w2,
    adc_enable_channel build device adc_channel sample_time w = Ok tt w1
    ∧ adc_disable_channel build device adc_channel w1 = Ok tt w2
    ∧ trace w2 = trace w ++
        [Call_ADC_AddAdcChannel (AdcCfg.register_base (adc (devices w device)))
           {| u32Channel := Z.shiftl 1 adc_channel mod 2 ^ 32;
              u8Sequence := AdcCfg.sequence (adc (devices w device));
              pu8SampTime := sample_time |};
         Call_ADC_DelAdcChannel (AdcCfg.register_base (adc (devices w device)))
           (Z.shiftl 1 adc_channel mod 2 ^ 32)]
    ∧ hw w2 = hw w
    ∧ devices w2 = devices w.
Proof.
  intros Hinit Hch Hst.
  destruct (adc_enable_channel_run build device adc_channel sample_time w)
    as (w1 & Henable & Htrace1 & Hhw1 & Hdevs1); [done|].
  destruct (adc_disable_channel_run build device adc_channel w1)
    as (w2 & Hdisable & Htrace2 & Hhw2 & Hdevs2 & _); [by rewrite Hdevs1|].
  exists w1, w2. split_and!; try congruence.
  rewrite Htrace2, Htrace1, Hdevs1, Hinit. by rewrite <- app_assoc.
Qed.

Lemma pow2_land_disjoint (a b : Z) :
  0 ≤ a → 0 ≤ b → a ≠ b → Z.land (2 ^ a) (2 ^ b) = 0.
Proof.
  intros Ha Hb Hne. apply Z.bits_inj'. intros n Hn.
  rewrite Z.land_spec, !Z.pow2_bits_eqb, Z.bits_0 by done.
  destruct (Z.eqb_spec a n), (Z.eqb_spec b n); try done. congruence.
Qed.

(** X4: the masks of two different channels below 32 share no bit, and
    none of them is zero: adding or deleting one channel names no other
    channel. *)
Theorem adc_channel_masks_disjoint build device (a b : Z) w :
  0 ≤ a < AdcCfg.channel_count (adc (devices w device)) →
  0 ≤ b < AdcCfg.channel_count (adc (devices w device)) →
  a < 32 → b < 32 → a ≠ b →
  ∃ mask_a mask_b,
    adc_channel_to_mask build device a w = Ok mask_a w
    ∧ adc_channel_to_mask build device b w = Ok mask_b w
    ∧ Z.testbit mask_a a = true
    ∧ Z.testbit mask_b b = true
    ∧ Z.land mask_a mask_b = 0.
Proof.
  intros Ha Hb Ha32 Hb32 Hne. eexists _, _. split_and!.
  - run. by rewrite (channel_id_check _ _ Ha).
  - run. by rewrite (channel_id_check _ _ Hb).
  - rewrite channel_mask_exact, Z.shiftl_1_l by lia. apply Z.pow2_bits_true. lia.
  - rewrite channel_mask_exact, Z.shiftl_1_l by lia. apply Z.pow2_bits_true. lia.
  - rewrite !channel_mask_exact, !Z.shiftl_1_l by lia.
    apply pow2_land_disjoint; lia.
Qed.

(** X12: the first [adc_device_init] of a device leaves no completion
    behind: both transfer-complete flags of its DMA channel are clear, the
    flags of every other channel are as they were, and a poll says "not
    completed". *)
Theorem adc_device_init_clears_flags build device w :
  initialized (state (devices w device)) = false →
  let base := DmaCfg.register_base (dma (devices w device)) in
  let ch := DmaCfg.channel (dma (devices w device)) in
  ∃ w',
    adc_device_init build device w = Ok tt w'
    ∧ dma_irq_flag (hw w') (base, ch, TrnCpltIrq) = Reset
    ∧ dma_irq_flag (hw w') (base, ch, BlkTrnCpltIrq) = Reset
    ∧ (∀ k, k ≠ (base, ch, TrnCpltIrq) → k ≠ (base, ch, BlkTrnCpltIrq) →
         dma_irq_flag (hw w') k = dma_irq_flag (hw w) k)
    ∧ ∃ w'', adc_is_conversion_completed build device w' = Ok false w''.
Proof.
  intros Hinit base ch.
  assert (Hne : (base, ch, BlkTrnCpltIrq) ≠ (base, ch, TrnCpltIrq)) by congruence.
  destruct build; eexists.
  all: split; [run; rewrite Hinit; reflexivity|].
  all: cbn; split_and!.
  all: try (by rewrite ?fn_lookup_insert_ne, ?fn_lookup_insert by done).
  all: try (intros k Hk1 Hk2; by rewrite !fn_lookup_insert_ne by done).
  all: eexists; apply poll_after_clear; cbn;
    [by rewrite fn_lookup_alter
    | unfold block_complete_flag; cbn; rewrite fn_lookup_alter; cbn;
      apply fn_lookup_insert].
Qed.

(** *** Pins *)

(** X5: a pin number beyond the board is ignored: [pinMode] and
    [digitalWrite] make no call, change neither the peripherals nor the
    devices, and return (a debug build that aborts halts on the pin
    assertion instead). *)
Theorem pins_beyond_the_board_are_ignored build pin (dwMode dwVal : Z) w :
  (BOARD_NR_GPIO_PINS ≤ pin)%N →
  let o1 := pinMode build pin dwMode w in
  let o2 := digitalWrite build pin dwVal w in
  hw (final_world o1) = hw w ∧ devices (final_world o1) = devices w
  ∧ trace (final_world o1) = trace w
  ∧ hw (final_world o2) = hw w ∧ devices (final_world o2) = devices w
  ∧ trace (final_world o2) = trace w
  ∧ match build with
    | DebugAbort =>
        o1 = Halt (AssertFailed (GPIO_PIN_INVALID_MESSAGE "pinMode")) w
        ∧ o2 = Halt (AssertFailed (GPIO_PIN_INVALID_MESSAGE "digitalWrite")) w
    | DebugLog | Release => (∃ w', o1 = Ok tt w') ∧ (∃ w', o2 = Ok tt w')
    end.
Proof.
  intros Hpin o1 o2. subst o1 o2. unfold pinMode, digitalWrite, mbind, M_bind.
  rewrite !ASSERT_GPIO_PIN_VALID_fails by done.
  destruct build; rewrite ?decide_True by done; cbn; eauto 10.
Qed.

Lemma INPUT_ANALOG_valid : valid_pin_mode INPUT_ANALOG.
Proof. apply valid_pin_mode_cases. auto. Qed.

(** X6: two pins of one converter share its device object.  After
    [pinMode(p, INPUT_ANALOG)] has initialized the converter,
    [pinMode(q, INPUT_ANALOG)] on another pin of the same converter does
    not initialize it again: it only adds the channel of [q] and
    configures the pin. *)
Theorem second_analog_pin_shares_converter build p q device cp cq w :
  (p < BOARD_NR_GPIO_PINS)%N →
  (q < BOARD_NR_GPIO_PINS)%N →
  adc_pin p device cp →
  adc_pin q device cq →
  (build = DebugAbort → adc_pin_well_formed p w ∧ adc_pin_well_formed q w) →
  ∃ w1 w2,
    pinMode build p INPUT_ANALOG w = Ok tt w1
    ∧ pinMode build q INPUT_ANALOG w1 = Ok tt w2
    ∧ trace w2 = trace w1 ++
        [Call_ADC_AddAdcChannel (AdcCfg.register_base (adc (devices w device)))
           {| u32Channel := Z.shiftl 1 cq mod 2 ^ 32;
              u8Sequence := AdcCfg.sequence (adc (devices w device));
              pu8SampTime := ADC_SAMPLE_TIME_DEFAULT |};
         Call_GPIO_SetFunc q Func_Gpio Enable;
         Call_GPIO_Init q {| enPinMode := Pin_Mode_Ana; enPullUp := Disable |}].
Proof.
  intros Hp Hq Hadc_p Hadc_q Hok.
  destruct (pinMode_run build p INPUT_ANALOG w Hp INPUT_ANALOG_valid)
    as (conf1 & calls1 & w1 & Hrun1 & _ & _ & _ & _ & _ & _ & _ & _ & Hadc1).
  { intros Hb. by apply Hok. }
  specialize (Hadc1 device cp Hadc_p). rewrite decide_True in Hadc1 by done.
  destruct Hadc1 as [_ Hinit1].
  pose proof (pinMode_devices_grow build p INPUT_ANALOG w device) as Hgrow.
  rewrite Hrun1 in Hgrow. cbn in Hgrow. destruct Hgrow as (Hcfg & _).
  destruct (pinMode_run build q INPUT_ANALOG w1 Hq INPUT_ANALOG_valid)
    as (conf2 & calls2 & w2 & Hrun2 & _ & _ & Hana & _ & Htrace2 & _ & _ & _ & Hadc2).
  { intros Hb device' channel' Hadc'.
    destruct (adc_pin_unique _ _ _ _ _ Hadc_q Hadc') as [-> ->].
    rewrite Hcfg. by apply (Hok Hb). }
  specialize (Hadc2 device cq Hadc_q). rewrite decide_True in Hadc2 by done.
  destruct Hadc2 as [Hcalls2 _]. rewrite Hinit1, Hcfg in Hcalls2.
  exists w1, w2. split_and!; [done..|].
  by rewrite Htrace2, Hcalls2, (Hana eq_refl).
Qed.

(** X10: [pinMode] configures one pin.  Whatever the pin and the mode, and
    whether the call returns or halts, every call of the GPIO driver it
    makes names its own pin, and the function and the configuration of
    every other pin, and all output latches and input bits, are as they
    were. *)
Theorem pinMode_touches_one_pin build pin dwMode w :
  let w' := final_world (pinMode build pin dwMode w) in
  calls_added (λ c, ∀ q, gpio_call_pin c = Some q → q = pin) w w'
  ∧ gpio_out (hw w') = gpio_out (hw w)
  ∧ gpio_in (hw w') = gpio_in (hw w)
  ∧ ∀ q, q ≠ pin →
      gpio_func (hw w') q = gpio_func (hw w) q
      ∧ gpio_cfg (hw w') q = gpio_cfg (hw w) q.
Proof.
  split; [apply pinMode_calls_added | apply pinMode_gpio_untouched_but].
Qed.

(** X8: [getPinMode] and [digitalRead] only read: neither changes the
    peripherals or the devices, [getPinMode] returns one of the five mode
    constants and [digitalRead] returns [HIGH] or [LOW]. *)
Theorem reads_are_read_only build pin w :
  same_state w (final_world (getPinMode build pin w))
  ∧ same_state w (final_world (digitalRead build pin w))
  ∧ (∀ dwMode w', getPinMode build pin w = Ok dwMode w' →
       dwMode ∈ [INPUT; INPUT_PULLUP; INPUT_ANALOG; OUTPUT; INPUT_FLOATING])
  ∧ (∀ v w', digitalRead build pin w = Ok v w' → v = HIGH ∨ v = LOW).
Proof.
  split_and!.
  - apply getPinMode_same_state.
  - apply digitalRead_same_state.
  - intros dwMode w'. run. destruct build; split_tests.
    all: try destruct (enPinMode _); split_tests.
    all: intros [= <- _] || discriminate.
    all: rewrite !elem_of_cons; auto 10.
  - intros v w'. run. destruct build; split_tests.
    all: intros [= <- _] || discriminate.
    all: auto.
Qed.

(** X9: [pinMode(pin, getPinMode(pin))] keeps the mode of a pin of the
    board that is an input, an output or analog.  The pull-up is kept on an
    input; on an output or an analog pin it is switched off, since
    [getPinMode] reports it for inputs only. *)
Theorem getPinMode_then_pinMode build pin w :
  (pin < BOARD_NR_GPIO_PINS)%N →
  (∀ raw, enPinMode (gpio_cfg (hw w) pin) ≠ Pin_Mode_Other raw) →
  (build = DebugAbort → adc_pin_well_formed pin w) →
  ∃ dwMode w1 w2,
    getPinMode build pin w = Ok dwMode w1
    ∧ pinMode build pin dwMode w1 = Ok tt w2
    ∧ enPinMode (gpio_cfg (hw w2) pin) = enPinMode (gpio_cfg (hw w) pin)
    ∧ enPullUp (gpio_cfg (hw w2) pin) =
        match enPinMode (gpio_cfg (hw w) pin) with
        | Pin_Mode_In => enPullUp (gpio_cfg (hw w) pin)
        | _ => Disable
        end.
Proof.
  intros Hpin Hknown Hok.
  assert (Hget : ∃ dwMode,
    getPinMode build pin w = Ok dwMode (log_call (Call_GPIO_GetConfig pin) w)
    ∧ match enPinMode (gpio_cfg (hw w) pin) with
      | Pin_Mode_In =>
          if decide (enPullUp (gpio_cfg (hw w) pin) = Enable)
          then dwMode = INPUT_PULLUP else dwMode = INPUT
      | Pin_Mode_Out => dwMode = OUTPUT
      | Pin_Mode_Ana => dwMode = INPUT_ANALOG
      | Pin_Mode_Other _ => False
      end).
  { unfold getPinMode.
    rewrite (bind_Ok _ _ _ _ _ (ASSERT_GPIO_PIN_VALID_passes build pin _ w Hpin)).
    rewrite decide_False by lia. run. cbn.
    destruct (enPinMode (gpio_cfg (hw w) pin)) eqn:Hmode.
    - eexists. split; [done|]. by case_decide.
    - by eexists.
    - by eexists.
    - by destruct (Hknown raw). }
  destruct Hget as (dwMode & Hget & Hmode).
  assert (Hvalid : valid_pin_mode dwMode).
  { apply valid_pin_mode_cases.
    destruct (enPinMode (gpio_cfg (hw w) pin)); [case_decide|..]; tauto. }
  destruct (pinMode_run build pin dwMode (log_call (Call_GPIO_GetConfig pin) w) Hpin Hvalid)
    as (pinConf & calls & w2 & Hrun & Hin & Hup & Hana & Hout & _ & _ & Hcfg & _); [done|].
  exists dwMode, (log_call (Call_GPIO_GetConfig pin) w), w2.
  split_and!; [done | done | |]; rewrite Hcfg.
  all: destruct (enPinMode (gpio_cfg (hw w) pin)); [case_decide|..]; try done.
  all: first [rewrite (Hin Hmode) | rewrite (Hup Hmode)
             | rewrite (Hana Hmode) | rewrite (Hout Hmode)]; cbn; try done.
  all: by destruct (enPullUp (gpio_cfg (hw w) pin)).
Qed.

(** *** What no call does *)

(** X7: no function of the two files ever takes the [initialized] flag of
    a device back or changes the configuration of a device, whatever its
    arguments and whether it returns or halts. *)
Theorem api_keeps_devices build environment :
  (∀ device, preserves devices_grow (adc_device_init build device))
  ∧ (∀ device adc_channel sample_time,
       preserves devices_grow (adc_enable_channel build device adc_channel sample_time))
  ∧ (∀ device adc_channel,
       preserves devices_grow (adc_disable_channel build device adc_channel))
  ∧ (∀ device, preserves devices_grow (adc_start_conversion build device))
  ∧ (∀ device, preserves devices_grow (adc_is_conversion_completed build device))
  ∧ (∀ device fuel,
       preserves devices_grow (adc_await_conversion_completed build environment fuel device))
  ∧ (∀ device adc_channel,
       preserves devices_grow (adc_conversion_read_result build device adc_channel))
  ∧ (∀ pin dwMode, preserves devices_grow (pinMode build pin dwMode))
  ∧ (∀ pin, preserves devices_grow (getPinMode build pin))
  ∧ (∀ pin dwVal, preserves devices_grow (digitalWrite build pin dwVal))
  ∧ (∀ pin, preserves devices_grow (digitalRead build pin)).
Proof.
  split_and!; intros.
  - apply adc_device_init_devices_grow.
  - eapply preserves_weaken, adc_enable_channel_same_state. apply same_state_devices_grow.
  - eapply preserves_weaken, adc_disable_channel_same_state. apply same_state_devices_grow.
  - apply adc_start_conversion_devices_grow.
  - eapply preserves_weaken, adc_is_conversion_completed_same_state.
    apply same_state_devices_grow.
  - apply adc_await_conversion_completed_devices_grow.
  - apply adc_conversion_read_result_devices_grow.
  - apply pinMode_devices_grow.
  - eapply preserves_weaken, getPinMode_same_state. apply same_state_devices_grow.
  - eapply preserves_weaken, digitalWrite_adc_untouched.
    intros w w' [Hdevs _] p. rewrite Hdevs. reflexivity.
  - eapply preserves_weaken, digitalRead_same_state. apply same_state_devices_grow.
Qed.

Lemma preserves_and {A} (R R' : world → world → Prop) (m : M A) :
  preserves R m → preserves R' m → preserves (λ w w', R w w' ∧ R' w w') m.
Proof. intros HR HR' w. split; [apply HR | apply HR']. Qed.

(** X13: the ADC driver and the digital pin functions keep to their own
    peripherals.  No function of adc.cpp calls the GPIO driver, and none
    changes the GPIO side by itself; [digitalWrite], [digitalRead] and
    [getPinMode] call nothing but the GPIO driver, on their own pin, and
    change neither a device object nor a DMA flag. *)
Theorem adc_and_gpio_are_separate build environment :
  let adc_only w w' :=
    calls_added (λ c, gpio_call_pin c = None) w w' ∧ gpio_untouched w w' in
  let gpio_only pin w w' :=
    calls_added (λ c, gpio_call_pin c = Some pin) w w' ∧ adc_untouched w w' in
  (∀ device, preserves adc_only (adc_device_init build device))
  ∧ (∀ device adc_channel sample_time,
       preserves adc_only (adc_enable_channel build device adc_channel sample_time))
  ∧ (∀ device adc_channel,
       preserves adc_only (adc_disable_channel build device adc_channel))
  ∧ (∀ device, preserves adc_only (adc_start_conversion build device))
  ∧ (∀ device, preserves adc_only (adc_is_conversion_completed build device))
  ∧ (∀ device adc_channel,
       preserves adc_only (adc_conversion_read_result build device adc_channel))
  ∧ (∀ device fuel,
       preserves (calls_added (λ c, gpio_call_pin c = None))
         (adc_await_conversion_completed build environment fuel device))
  ∧ (∀ pin dwVal, preserves (gpio_only pin) (digitalWrite build pin dwVal))
  ∧ (∀ pin, preserves (gpio_only pin) (digitalRead build pin))
  ∧ (∀ pin, preserves (gpio_only pin) (getPinMode build pin)).
Proof.
  intros adc_only gpio_only. split_and!; intros.
  - apply preserves_and;
      [apply adc_device_init_calls_added | apply adc_device_init_gpio_untouched].
  - apply preserves_and; [apply adc_enable_channel_calls_added|].
    eapply preserves_weaken, adc_enable_channel_same_state. apply same_state_gpio_untouched.
  - apply preserves_and; [apply adc_disable_channel_calls_added|].
    eapply preserves_weaken, adc_disable_channel_same_state. apply same_state_gpio_untouched.
  - apply preserves_and;
      [apply adc_start_conversion_calls_added | apply adc_start_conversion_gpio_untouched].
  - apply preserves_and; [apply adc_is_conversion_completed_calls_added|].
    eapply preserves_weaken, adc_is_conversion_completed_same_state.
    apply same_state_gpio_untouched.
  - apply preserves_and;
      [apply adc_conversion_read_result_calls_added
      | apply adc_conversion_read_result_gpio_untouched].
  - apply adc_await_conversion_completed_calls_added.
  - apply preserves_and; [apply (digital_calls_added build pin dwVal)|].
    apply digitalWrite_adc_untouched.
  - apply preserves_and; [apply (digital_calls_added build pin 0)|].
    eapply preserves_weaken, digitalRead_same_state. apply same_state_adc_untouched.
  - apply preserves_and; [apply (digital_calls_added build pin 0)|].
    eapply preserves_weaken, getPinMode_same_state. apply same_state_adc_untouched.
Qed.

End Invariants.

(** * The invariants and compositions at work on the example board *)

Module MoreExamples.
Import ExampleBoard ExampleWorlds.
#[local] Existing Instance board.

Lemma pin1_on_board : (1 < BOARD_NR_GPIO_PINS)%N.
Proof. reflexivity. Defined.

Lemma pin3_on_board : (3 < BOARD_NR_GPIO_PINS)%N.
Proof. reflexivity. Defined.

Lemma pin1_is_adc_pin : adc_pin 1 ADC1_device 1.
Proof. split_and!; [reflexivity | reflexivity | discriminate]. Defined.

Lemma pin1_well_formed : adc_pin_well_formed 1 world0.
Proof.
  intros device channel (Hdevice & Hchannel & _).
  cbn in Hdevice, Hchannel. injection Hdevice as <-. subst channel.
  vm_compute. repeat split; easy.
Defined.

Lemma pin3_well_formed : adc_pin_well_formed 3 world_output.
Proof. intros device channel (Hdevice & _). discriminate Hdevice. Defined.

Lemma start_clears_stale_flag :
  initialized (state (devices world_stale ADC1_device)) = true
  ∧ block_complete_flag (devices world_stale ADC1_device) (hw world_stale) = Set_
  ∧ ∃ w', adc_start_conversion DebugAbort ADC1_device world_stale = Ok tt w'
          ∧ block_complete_flag (devices world_stale ADC1_device) (hw w') = Reset
          ∧ ∃ w'', adc_is_conversion_completed DebugAbort ADC1_device w' = Ok false w''.
Proof.
  split_and!; [reflexivity | reflexivity |].
  destruct (adc_start_conversion_starts_afresh DebugAbort ADC1_device world_stale eq_refl)
    as (w' & Hstart & _ & Hflag & _ & _ & Hpoll).
  by exists w'.
Defined.

Lemma read_twice :
  initialized (state (devices world1 ADC1_device)) = true
  ∧ 0 ≤ 3 < AdcCfg.channel_count (adc (devices world1 ADC1_device))
  ∧ conversion_results (state (devices world1 ADC1_device)) !! Z.to_nat 3 = Some 103
  ∧ ∃ w', adc_conversion_read_result DebugAbort ADC1_device 3 world1 = Ok 103 w'
          ∧ (∃ w'', adc_is_conversion_completed DebugAbort ADC1_device w' = Ok false w'')
          ∧ (∃ w'', adc_conversion_read_result DebugAbort ADC1_device 3 w' = Ok 103 w'').
Proof.
  split_and!; [reflexivity | by vm_compute | by vm_compute | reflexivity |].
  apply adc_conversion_read_result_consumes; [reflexivity | by vm_compute | reflexivity].
Defined.

Lemma stale_flag_does_not_end_wait :
  initialized (state (devices world_stale ADC1_device)) = true
  ∧ flag_left_alone dma_stalled (devices world_stale ADC1_device)
  ∧ ∃ w',
      (adc_start_conversion DebugAbort ADC1_device ≫=
         λ _, adc_await_conversion_completed DebugAbort dma_stalled 3 ADC1_device)
        world_stale = Halt OutOfFuel w'.
Proof.
  split_and!; [reflexivity | by intros t h |].
  destruct (adc_await_ignores_stale_completion
              DebugAbort dma_stalled ADC1_device 3 world_stale eq_refl)
    as (w' & Hrun & _); [by intros t h|].
  by exists w'.
Defined.

Lemma enable_disable_channel_3 :
  initialized (state (devices world1 ADC1_device)) = true
  ∧ 0 ≤ 3 < AdcCfg.channel_count (adc (devices world1 ADC1_device))
  ∧ 0 < 50
  ∧ ∃ w1 w2,
      adc_enable_channel DebugAbort ADC1_device 3 50 world1 = Ok tt w1
      ∧ adc_disable_channel DebugAbort ADC1_device 3 w1 = Ok tt w2
      ∧ trace w2 =
          [Call_ADC_AddAdcChannel 0x40040000
             {| u32Channel := 8; u8Sequence := 0; pu8SampTime := 50 |};
           Call_ADC_DelAdcChannel 0x40040000 8].
Proof.
  split_and!; [reflexivity | by vm_compute | by vm_compute | lia |].
  destruct (adc_enable_then_disable DebugAbort ADC1_device 3 50 world1)
    as (w1 & w2 & Henable & Hdisable & Htrace & _); [reflexivity | by vm_compute | lia |].
  by exists w1, w2.
Defined.

Lemma masks_of_channels_0_and_3 :
  0 ≤ 0 < AdcCfg.channel_count (adc (devices world1 ADC1_device))
  ∧ 0 ≤ 3 < AdcCfg.channel_count (adc (devices world1 ADC1_device))
  ∧ ∃ mask_a mask_b,
      adc_channel_to_mask DebugAbort ADC1_device 0 world1 = Ok mask_a world1
      ∧ adc_channel_to_mask DebugAbort ADC1_device 3 world1 = Ok mask_b world1
      ∧ Z.land mask_a mask_b = 0.
Proof.
  split_and!; [by vm_compute.. |].
  destruct (adc_channel_masks_disjoint DebugAbort ADC1_device 0 3 world1)
    as (mask_a & mask_b & Ha & Hb & _ & _ & Hland); [by vm_compute.. | lia | lia | lia |].
  by exists mask_a, mask_b.
Defined.

Lemma first_init_clears_flags :
  initialized (state (devices world0 ADC1_device)) = false
  ∧ ∃ w', adc_device_init DebugAbort ADC1_device world0 = Ok tt w'
          ∧ dma_irq_flag (hw w') (0x40053000, 0, TrnCpltIrq) = Reset
          ∧ dma_irq_flag (hw w') (0x40053000, 0, BlkTrnCpltIrq) = Reset
          ∧ ∃ w'', adc_is_conversion_completed DebugAbort ADC1_device w' = Ok false w''.
Proof.
  split; [reflexivity|].
  destruct (adc_device_init_clears_flags DebugAbort ADC1_device world0 eq_refl)
    as (w' & Hinit & Htrn & Hblk & _ & Hpoll).
  by exists w'.
Defined.

Lemma pin_83_is_ignored :
  (BOARD_NR_GPIO_PINS ≤ 83)%N
  ∧ pinMode Release 83 OUTPUT world0 = Ok tt world0
  ∧ digitalWrite Release 83 HIGH world0 = Ok tt world0
  ∧ trace (final_world (pinMode DebugAbort 83 OUTPUT world0)) = [].
Proof.
  assert (Hpin : (BOARD_NR_GPIO_PINS ≤ 83)%N) by discriminate.
  destruct (pins_beyond_the_board_are_ignored DebugAbort 83 OUTPUT HIGH world0 Hpin)
    as (_ & _ & Htrace & _).
  split_and!; [exact Hpin | reflexivity | reflexivity | exact Htrace].
Defined.

Lemma pins_0_and_1_share_adc1 :
  (0 < BOARD_NR_GPIO_PINS)%N ∧ (1 < BOARD_NR_GPIO_PINS)%N
  ∧ adc_pin 0 ADC1_device 0 ∧ adc_pin 1 ADC1_device 1
  ∧ adc_pin_well_formed 0 world0 ∧ adc_pin_well_formed 1 world0
  ∧ ∃ w1 w2,
      pinMode DebugAbort 0 INPUT_ANALOG world0 = Ok tt w1
      ∧ pinMode DebugAbort 1 INPUT_ANALOG w1 = Ok tt w2
      ∧ trace w2 = trace w1 ++
          [Call_ADC_AddAdcChannel 0x40040000
             {| u32Channel := 2; u8Sequence := 0; pu8SampTime := 50 |};
           Call_GPIO_SetFunc 1 Func_Gpio Enable;
           Call_GPIO_Init 1 {| enPinMode := Pin_Mode_Ana; enPullUp := Disable |}].
Proof.
  split_and!;
    [ exact Examples.pin0_on_board | exact pin1_on_board
    | exact Examples.pin0_is_adc_pin | exact pin1_is_adc_pin
    | exact Examples.pin0_well_formed | exact pin1_well_formed | ].
  apply (second_analog_pin_shares_converter DebugAbort 0 1 ADC1_device 0 1 world0
           Examples.pin0_on_board pin1_on_board Examples.pin0_is_adc_pin pin1_is_adc_pin).
  intros _. split; [exact Examples.pin0_well_formed | exact pin1_well_formed].
Defined.

Lemma output_pin_loses_pull_up :
  (3 < BOARD_NR_GPIO_PINS)%N
  ∧ adc_pin_well_formed 3 world_output
  ∧ gpio_cfg (hw world_output) 3%N = {| enPinMode := Pin_Mode_Out; enPullUp := Enable |}
  ∧ ∃ w1 w2,
      getPinMode DebugAbort 3 world_output = Ok OUTPUT w1
      ∧ pinMode DebugAbort 3 OUTPUT w1 = Ok tt w2
      ∧ enPinMode (gpio_cfg (hw w2) 3%N) = Pin_Mode_Out
      ∧ enPullUp (gpio_cfg (hw w2) 3%N) = Disable.
Proof.
  split_and!; [exact pin3_on_board | exact pin3_well_formed | reflexivity |].
  destruct (getPinMode_then_pinMode DebugAbort 3 world_output pin3_on_board)
    as (dwMode & w1 & w2 & Hget & Hset & Hmode & Hpull);
    [by intros raw | intros _; exact pin3_well_formed |].
  assert (dwMode = OUTPUT) as ->
    by (vm_compute in Hget; injection Hget as <- _; reflexivity).
  by exists w1, w2.
Defined.

End MoreExamples.
